(** * VMC sender of OpenSeeFaceGUI: a shallow embedding of [vmc_sender.py]

    The development follows [src/vmc_sender.py], the loop of
    [src/facetracker_vmc.py] that calls it, and [get_selected_quality] of
    [src/gui.py].  Python floats are taken
    as exact rationals ([Q]); comparisons, [min] and [max] are exact on
    floats, and every concrete input used below is a dyadic rational.
    The python-osc client and the [math] module are outside the
    repository: the client is modelled by its observable effect (a
    datagram handed to the network, or an [OSError]), the [math] functions
    are a parameter. *)

From Stdlib Require Import QArith Qabs Qminmax Lqa ZArith List Bool Lia.
From stdpp Require Import base gmap strings list.
Import ListNotations.

Local Open Scope Q_scope.

(** ** Python's comparison, [min] and [max] on numbers *)

(** [a > b] *)
Definition py_gt (a b : Q) : bool := negb (Qle_bool a b).

(** [max(a, b)]: the first argument is kept unless the second is greater. *)
Definition py_max (a b : Q) : Q := if py_gt b a then b else a.

(** [min(a, b)]: the first argument is kept unless the second is smaller. *)
Definition py_min (a b : Q) : Q := if py_gt a b then b else a.

(** ** OSC messages *)

Inductive OSCArg : Type :=
| OInt (z : Z)
| OFloat (x : Q)
| OStr (s : string).

Record OSCMessage : Type := mkMsg { address : string; args : list OSCArg }.

(** ** The UDP client (python-osc's [SimpleUDPClient])

    [sent] lists the datagrams handed to the network, oldest first;
    [calls] counts the calls of [send_message]; [sendto_ok n] tells whether
    the socket accepts the datagram of call number [n]. *)

Record SimpleUDPClient : Type := mkClient {
  sent : list OSCMessage;
  calls : nat;
  sendto_ok : nat -> bool
}.

(** ** Exceptions and the monad of effects on the client *)

Inductive exn : Type := OSError | IndexError.

Inductive result (A : Type) : Type :=
| Ok (a : A)
| Raise (e : exn).
Arguments Ok {A} a.
Arguments Raise {A} e.

Definition M (A : Type) : Type := SimpleUDPClient -> result A * SimpleUDPClient.

Definition ret {A} (a : A) : M A := fun c => (Ok a, c).

Definition bind {A B} (m : M A) (k : A -> M B) : M B :=
  fun c => match m c with
           | (Ok a, c') => k a c'
           | (Raise e, c') => (Raise e, c')
           end.

Declare Scope py_scope.
Delimit Scope py_scope with py.
Notation "x <~ m ;; k" := (bind m (fun x => k))
  (at level 20, m at level 99, k at level 200, only parsing) : py_scope.
Notation "m ;; k" := (bind m (fun _ => k))
  (at level 100, k at level 200, only parsing, right associativity) : py_scope.
Local Open Scope py_scope.

Definition raise {A} (e : exn) : M A := fun c => (Raise e, c).

(** [client.send_message(address, args)]: one datagram per message; a
    socket failure surfaces as [OSError]. *)
Definition send_message (addr : string) (a : list OSCArg) : M unit :=
  fun c =>
    if sendto_ok c (calls c)
    then (Ok tt, mkClient (sent c ++ [mkMsg addr a]) (S (calls c)) (sendto_ok c))
    else (Raise OSError, mkClient (sent c) (S (calls c)) (sendto_ok c)).

(** [l[i]] on a Python list: [IndexError] out of range. *)
Definition getitem {A} (l : list A) (i : nat) : M A :=
  match nth_error l i with
  | Some a => ret a
  | None => raise IndexError
  end.

(** ** The [math] module, as far as [euler_to_quaternion] uses it *)

Record MathModule : Type := mkMath {
  radians : Q -> Q;
  cos : Q -> Q;
  sin : Q -> Q
}.

(** ** The tracker's [FaceInfo], as far as the sender reads it *)

Record FaceInfo : Type := mkFace {
  success : bool;
  euler : option (Q * Q * Q);
  translation : option (Q * Q * Q);
  eye_state : option (list (list Q));
  eye_blink : option (Q * Q);
  current_features : option (gmap string Q)
}.

(** ** [class VMCSender]

    [self.client] is the only attribute with effects and is the state of
    [M]; [ip], [port] and [start_time] are assigned in [__init__] only. *)

Record VMCSender : Type := mkSender {
  ip : string;
  port : Z;
  start_time : Q
}.

Section Sender.

Variable math : MathModule.
Variable self : VMCSender.

Definition send_blend_shape (name : string) (value : Q) : M unit :=
  send_message "/VMC/Ext/Blend/Val" [OStr name; OFloat value].

Definition send_blend_shape_apply : M unit :=
  send_message "/VMC/Ext/Blend/Apply" [].

Definition send_bone_transform (bone_name : string) (px py pz qx qy qz qw : Q) : M unit :=
  send_message "/VMC/Ext/Bone/Pos"
    [OStr bone_name; OFloat px; OFloat py; OFloat pz;
     OFloat qx; OFloat qy; OFloat qz; OFloat qw].

Definition send_available (available calibration_state tracking_status : Z) : M unit :=
  send_message "/VMC/Ext/OK" [OInt available; OInt calibration_state; OInt tracking_status].

Definition send_time (time_val : Q) : M unit :=
  send_message "/VMC/Ext/T" [OFloat time_val].

Definition euler_to_quaternion (pitch yaw roll : Q) : Q * Q * Q * Q :=
  let pitch := radians math pitch in
  let yaw := radians math yaw in
  let roll := radians math roll in
  let cr := cos math (roll * (1#2)) in
  let sr := sin math (roll * (1#2)) in
  let cp := cos math (pitch * (1#2)) in
  let sp := sin math (pitch * (1#2)) in
  let cy := cos math (yaw * (1#2)) in
  let sy := sin math (yaw * (1#2)) in
  let qw := cr * cp * cy + sr * sp * sy in
  let qx := sr * cp * cy - cr * sp * sy in
  let qy := cr * sp * cy + sr * cp * sy in
  let qz := cr * cp * sy - sr * sp * cy in
  (qx, qy, qz, qw).

Definition send_root_transform : M unit :=
  send_message "/VMC/Ext/Root/Pos"
    [OStr "root"; OFloat 0; OFloat 0; OFloat 0;
     OFloat 0; OFloat 0; OFloat 0; OFloat 1].

(** *** The sections of [send_tracking_data], in source order *)

(** Lines 121-142: head and neck bones. *)
Definition send_head_neck (face : FaceInfo) : M unit :=
  match success face, euler face with
  | true, Some (pitch, yaw, roll) =>
      let '(qx, qy, qz, qw) := euler_to_quaternion (- pitch) (- yaw) roll in
      let '(tx, ty, tz) :=
        match translation face with
        | Some (t0, t1, t2) => (t0 / 1000, - t1 / 1000, t2 / 1000)
        | None => (0, 0, 0)
        end in
      send_bone_transform "Head" tx ty tz qx qy qz qw ;;
      let '(neck_qx, neck_qy, neck_qz, neck_qw) :=
        euler_to_quaternion (- pitch * (3#10)) (- yaw * (3#10)) (roll * (3#10)) in
      send_bone_transform "Neck" (tx * (1#2)) (ty * (1#2)) (tz * (1#2))
        neck_qx neck_qy neck_qz neck_qw
  | _, _ => ret tt
  end.

(** Lines 144-168: eye gaze as bone transforms. *)
Definition send_eye_bones (face : FaceInfo) : M unit :=
  match eye_state face with
  | Some es =>
      if (2 <=? length es)%nat then
        right_eye <~ getitem es 0 ;;
        (if (3 <=? length right_eye)%nat then
           e2 <~ getitem right_eye 2 ;;
           let gaze_x_r := (e2 - 16) / 16 in
           e1 <~ getitem right_eye 1 ;;
           let gaze_y_r := (e1 - 16) / 16 in
           let gaze_x_r := py_max (-1) (py_min 1 gaze_x_r) * 15 in
           let gaze_y_r := py_max (-1) (py_min 1 gaze_y_r) * 10 in
           let '(eye_qx, eye_qy, eye_qz, eye_qw) := euler_to_quaternion gaze_y_r gaze_x_r 0 in
           send_bone_transform "RightEye" 0 0 0 eye_qx eye_qy eye_qz eye_qw
         else ret tt) ;;
        left_eye <~ getitem es 1 ;;
        (if (3 <=? length left_eye)%nat then
           e2 <~ getitem left_eye 2 ;;
           let gaze_x_l := (e2 - 16) / 16 in
           e1 <~ getitem left_eye 1 ;;
           let gaze_y_l := (e1 - 16) / 16 in
           let gaze_x_l := py_max (-1) (py_min 1 gaze_x_l) * 15 in
           let gaze_y_l := py_max (-1) (py_min 1 gaze_y_l) * 10 in
           let '(eye_qx, eye_qy, eye_qz, eye_qw) := euler_to_quaternion gaze_y_l gaze_x_l 0 in
           send_bone_transform "LeftEye" 0 0 0 eye_qx eye_qy eye_qz eye_qw
         else ret tt)
      else ret tt
  | None => ret tt
  end.

(** Lines 170-185: blinks. *)
Definition send_blinks (face : FaceInfo) : M unit :=
  match eye_blink face with
  | Some (b0, b1) =>
      let right_blink := 1 - py_min 1 (py_max 0 b0) in
      let left_blink := 1 - py_min 1 (py_max 0 b1) in
      send_blend_shape "eyeBlinkRight" right_blink ;;
      send_blend_shape "eyeBlinkLeft" left_blink ;;
      send_blend_shape "Blink_R" right_blink ;;
      send_blend_shape "Blink_L" left_blink ;;
      send_blend_shape "Blink" ((right_blink + left_blink) / 2)
  | None => ret tt
  end.

(** Lines 187-237: blend shapes from [current_features]. *)
Definition send_features (face : FaceInfo) : M unit :=
  match current_features face with
  | Some features =>
      match features !! "mouth_open" with
      | Some v =>
          let mouth_open := py_min 1 (py_max 0 v) in
          send_blend_shape "jawOpen" mouth_open ;;
          send_blend_shape "A" mouth_open ;;
          send_blend_shape "Aa" mouth_open ;;
          send_blend_shape "A" mouth_open
      | None => ret tt
      end ;;
      match features !! "mouth_wide" with
      | Some mouth_wide =>
          if py_gt mouth_wide 0 then
            send_blend_shape "mouthSmileLeft" (py_min 1 mouth_wide) ;;
            send_blend_shape "mouthSmileRight" (py_min 1 mouth_wide)
          else
            send_blend_shape "mouthFrownLeft" (py_min 1 (- mouth_wide)) ;;
            send_blend_shape "mouthFrownRight" (py_min 1 (- mouth_wide))
      | None => ret tt
      end ;;
      match features !! "mouth_corner_updown_l" with
      | Some val =>
          if py_gt val 0 then send_blend_shape "mouthSmileLeft" (py_min 1 val)
          else send_blend_shape "mouthFrownLeft" (py_min 1 (- val))
      | None => ret tt
      end ;;
      match features !! "mouth_corner_updown_r" with
      | Some val =>
          if py_gt val 0 then send_blend_shape "mouthSmileRight" (py_min 1 val)
          else send_blend_shape "mouthFrownRight" (py_min 1 (- val))
      | None => ret tt
      end ;;
      match features !! "eyebrow_updown_l" with
      | Some val =>
          if py_gt val 0 then send_blend_shape "browInnerUp" (py_min 1 val)
          else send_blend_shape "browDownLeft" (py_min 1 (- val))
      | None => ret tt
      end ;;
      match features !! "eyebrow_updown_r" with
      | Some val =>
          if py_gt val 0 then send_blend_shape "browInnerUp" (py_min 1 val)
          else send_blend_shape "browDownRight" (py_min 1 (- val))
      | None => ret tt
      end
  | None => ret tt
  end.

(** Lines 239-275: eye gaze as blend shapes. *)
Definition send_gaze_shapes (face : FaceInfo) : M unit :=
  match eye_state face with
  | Some es =>
      if (2 <=? length es)%nat then
        right_eye <~ getitem es 0 ;;
        (if (3 <=? length right_eye)%nat then
           e2 <~ getitem right_eye 2 ;;
           let gaze_x_r := (e2 - 16) / 16 in
           e1 <~ getitem right_eye 1 ;;
           let gaze_y_r := (e1 - 16) / 16 in
           send_blend_shape "eyeLookOutRight" (py_max 0 gaze_x_r) ;;
           send_blend_shape "eyeLookInRight" (py_max 0 (- gaze_x_r)) ;;
           send_blend_shape "eyeLookUpRight" (py_max 0 (- gaze_y_r)) ;;
           send_blend_shape "eyeLookDownRight" (py_max 0 gaze_y_r) ;;
           send_blend_shape "EyeLookOutRight" (py_max 0 gaze_x_r) ;;
           send_blend_shape "EyeLookInRight" (py_max 0 (- gaze_x_r)) ;;
           send_blend_shape "EyeLookUpRight" (py_max 0 (- gaze_y_r)) ;;
           send_blend_shape "EyeLookDownRight" (py_max 0 gaze_y_r)
         else ret tt) ;;
        left_eye <~ getitem es 1 ;;
        (if (3 <=? length left_eye)%nat then
           e2 <~ getitem left_eye 2 ;;
           let gaze_x_l := (e2 - 16) / 16 in
           e1 <~ getitem left_eye 1 ;;
           let gaze_y_l := (e1 - 16) / 16 in
           send_blend_shape "eyeLookInLeft" (py_max 0 gaze_x_l) ;;
           send_blend_shape "eyeLookOutLeft" (py_max 0 (- gaze_x_l)) ;;
           send_blend_shape "eyeLookUpLeft" (py_max 0 (- gaze_y_l)) ;;
           send_blend_shape "eyeLookDownLeft" (py_max 0 gaze_y_l) ;;
           send_blend_shape "EyeLookInLeft" (py_max 0 gaze_x_l) ;;
           send_blend_shape "EyeLookOutLeft" (py_max 0 (- gaze_x_l)) ;;
           send_blend_shape "EyeLookUpLeft" (py_max 0 (- gaze_y_l)) ;;
           send_blend_shape "EyeLookDownLeft" (py_max 0 gaze_y_l)
         else ret tt)
      else ret tt
  | None => ret tt
  end.

(** [send_tracking_data(self, face)]; [now] is the reading of
    [time.time()] on line 116. *)
Definition send_tracking_data (now : Q) (face : option FaceInfo) : M unit :=
  match face with
  | None => ret tt
  | Some face =>
      send_available (if success face then 1 else 0)%Z 3 1 ;;
      send_time (now - start_time self) ;;
      send_root_transform ;;
      send_head_neck face ;;
      send_eye_bones face ;;
      send_blinks face ;;
      send_features face ;;
      send_gaze_shapes face ;;
      send_blend_shape_apply
  end.

End Sender.

(** ** Running a frame: the messages a computation hands to the client *)

(** Sending the messages of a list one after the other. *)
Fixpoint play (l : list OSCMessage) : M unit :=
  match l with
  | [] => ret tt
  | m :: l' => send_message (address m) (args m) ;; play l'
  end.

(** [m] does what [play l] does, on every client. *)
Definition plays (m : M unit) (l : list OSCMessage) : Prop :=
  forall c, m c = play l c.

(** A computation that sends messages satisfying [P], and nothing else. *)
Definition emits (P : OSCMessage -> Prop) (m : M unit) : Prop :=
  exists l, plays m l /\ Forall P l.

(** The client after the datagrams of [l] went out. *)
Definition push (l : list OSCMessage) (c : SimpleUDPClient) : SimpleUDPClient :=
  mkClient (sent c ++ l) (length l + calls c) (sendto_ok c).

(** The socket accepts every datagram. *)
Definition reliable (c : SimpleUDPClient) : Prop :=
  forall n, sendto_ok c n = true.

(** A client that has sent nothing, on a socket that accepts everything. *)
Definition pristine : SimpleUDPClient := mkClient [] 0 (fun _ => true).

(** The client after call [k] of a frame failed: the datagrams before it
    went out, the others did not. *)
Definition cut (k : nat) (l : list OSCMessage) (c : SimpleUDPClient) : SimpleUDPClient :=
  mkClient (sent c ++ firstn k l) (S (k + calls c)) (sendto_ok c).

(** ** The messages of a frame, by kind *)

(** What [send_blend_shape name w] sends. *)
Definition blend (name : string) (w : Q) : OSCMessage :=
  mkMsg "/VMC/Ext/Blend/Val" [OStr name; OFloat w].

(** What [send_bone_transform name px py pz qx qy qz qw] sends. *)
Definition bone (name : string) (p : Q * Q * Q) (q : Q * Q * Q * Q) : OSCMessage :=
  let '(px, py, pz) := p in
  let '(qx, qy, qz, qw) := q in
  mkMsg "/VMC/Ext/Bone/Pos"
    [OStr name; OFloat px; OFloat py; OFloat pz;
     OFloat qx; OFloat qy; OFloat qz; OFloat qw].

Definition is_blend_val (m : OSCMessage) : bool :=
  String.eqb (address m) "/VMC/Ext/Blend/Val".

Definition is_bone_of (name : string) (m : OSCMessage) : bool :=
  String.eqb (address m) "/VMC/Ext/Bone/Pos" &&
  match args m with
  | OStr n :: _ => String.eqb n name
  | _ => false
  end.

Definition is_blend_of (name : string) (m : OSCMessage) : bool :=
  is_blend_val m &&
  match args m with
  | OStr n :: _ => String.eqb n name
  | _ => false
  end.

(** A blend-shape message with its name in [names] and its weight in [R]. *)
Definition blend_in (names : list string) (R : Q -> Prop) (m : OSCMessage) : Prop :=
  exists n w, m = blend n w /\ In n names /\ R w.

(** A bone message with its name in [names]. *)
Definition bone_in (names : list string) (m : OSCMessage) : Prop :=
  exists n p q, m = bone n p q /\ In n names.

Definition unit_range (w : Q) : Prop := 0 <= w <= 1.
Definition nonneg (w : Q) : Prop := 0 <= w.

Definition blink_names : list string :=
  ["eyeBlinkRight"; "eyeBlinkLeft"; "Blink_R"; "Blink_L"; "Blink"].

Definition feature_names : list string :=
  ["jawOpen"; "A"; "Aa"; "mouthSmileLeft"; "mouthSmileRight";
   "mouthFrownLeft"; "mouthFrownRight"; "browInnerUp"; "browDownLeft";
   "browDownRight"].

Definition gaze_names : list string :=
  ["eyeLookOutRight"; "eyeLookInRight"; "eyeLookUpRight"; "eyeLookDownRight";
   "EyeLookOutRight"; "EyeLookInRight"; "EyeLookUpRight"; "EyeLookDownRight";
   "eyeLookInLeft"; "eyeLookOutLeft"; "eyeLookUpLeft"; "eyeLookDownLeft";
   "EyeLookInLeft"; "EyeLookOutLeft"; "EyeLookUpLeft"; "EyeLookDownLeft"].

(** The guard of one eye in [send_tracking_data]: [eye_state] is present,
    has two entries at least, and entry [i] has three items at least. *)
Definition eye_entry_ok (i : nat) (face : FaceInfo) : bool :=
  match eye_state face with
  | Some es =>
      (2 <=? length es)%nat &&
      match nth_error es i with
      | Some e => (3 <=? length e)%nat
      | None => false
      end
  | None => false
  end.

(** The rotation, in degrees, that the bone of one eye is given for the
    pixel offset [o]: the normalised offset, clamped, times [scale]. *)
Definition gaze_degrees (scale o : Q) : Q :=
  py_max (-1) (py_min 1 ((o - 16) / 16)) * scale.

(** The bone message of one eye: entry [i] of [eye_state] gives the bone
    of name [n], at the origin, turned by the clamped degrees of the
    entry's offsets (item 2 horizontal, item 1 vertical). *)
Definition eye_bone_msg (math : MathModule) (f : FaceInfo) (m : OSCMessage) : Prop :=
  exists i n es eye x y,
    In (i, n) [(0%nat, "RightEye"); (1%nat, "LeftEye")]
    /\ eye_state f = Some es
    /\ nth_error es i = Some eye
    /\ nth_error eye 2 = Some x
    /\ nth_error eye 1 = Some y
    /\ m = bone n (0, 0, 0)
             (euler_to_quaternion math (gaze_degrees 10 y) (gaze_degrees 15 x) 0).

(** ** The frame of one call *)

Definition ok_msg (f : FaceInfo) : OSCMessage :=
  mkMsg "/VMC/Ext/OK" [OInt (if success f then 1 else 0); OInt 3; OInt 1].

Definition time_msg (self : VMCSender) (now : Q) : OSCMessage :=
  mkMsg "/VMC/Ext/T" [OFloat (now - start_time self)].

Definition root_msg : OSCMessage :=
  mkMsg "/VMC/Ext/Root/Pos"
    [OStr "root"; OFloat 0; OFloat 0; OFloat 0;
     OFloat 0; OFloat 0; OFloat 0; OFloat 1].

Definition apply_msg : OSCMessage := mkMsg "/VMC/Ext/Blend/Apply" [].

(** The five blink messages of lines 175-185. *)
Definition blink_batch (f : FaceInfo) : list OSCMessage :=
  match eye_blink f with
  | Some (b0, b1) =>
      let r := 1 - py_min 1 (py_max 0 b0) in
      let l := 1 - py_min 1 (py_max 0 b1) in
      [blend "eyeBlinkRight" r; blend "eyeBlinkLeft" l;
       blend "Blink_R" r; blend "Blink_L" l; blend "Blink" ((r + l) / 2)]
  | None => []
  end.

(** The messages of one call of [send_tracking_data], as a fresh client on
    a socket that accepts everything records them. *)
Definition frame (math : MathModule) (self : VMCSender) (now : Q) (f : FaceInfo)
  : list OSCMessage :=
  sent (snd (send_tracking_data math self now (Some f) pristine)).

(** What lies between the opening [OK] and the closing [Blend/Apply]. *)
Definition body_msg (math : MathModule) (self : VMCSender) (now : Q)
    (f : FaceInfo) (m : OSCMessage) : Prop :=
  m = time_msg self now
  \/ m = root_msg
  \/ bone_in ["Head"; "Neck"] m
  \/ eye_bone_msg math f m
  \/ blend_in blink_names unit_range m
  \/ blend_in feature_names unit_range m
  \/ blend_in gaze_names nonneg m.


(** ** Concrete inputs *)

(** A rational stand-in for the [math] module, to run the model on
    concrete inputs; no theorem depends on its values. *)
Definition approx_math : MathModule :=
  mkMath (fun d => d * (355 # 113) / 180)
         (fun x => 1 - x * x / 2)
         (fun x => x).

Definition sender0 : VMCSender := mkSender "127.0.0.1" 39539 0.

(** No face found, every optional field absent. *)
Definition face_absent : FaceInfo := mkFace false None None None None None.

(** The right eye's horizontal offset is 48 pixels. *)
Definition face_wide_gaze : FaceInfo :=
  mkFace true None None (Some [[1; 16; 48; 1]; [1; 16; 16; 1]]) None None.

(** The left eye's entry has two items only. *)
Definition face_short_left : FaceInfo :=
  mkFace true None None (Some [[1; 16; 16; 1]; [1; 16]]) None None.

(** [features = {"mouth_open": 1.5}]. *)
Definition face_mouth : FaceInfo :=
  mkFace true None None None None (Some {[ "mouth_open" := 3 # 2 ]}).

(** Both eyes fully open. *)
Definition face_open_eyes : FaceInfo :=
  mkFace true None None None (Some (1, 1)) None.

(** A client whose socket refuses the second datagram. *)
Definition flaky : SimpleUDPClient :=
  mkClient [] 0 (fun n => negb (n =? 1)%nat).

(** ** The frame, section by section, as a list

    What each section of [send_tracking_data] hands to the client, read
    off the same source lines as the section; the rules for [plays] below
    show that each section does send exactly this list. *)

(** Lines 121-142. *)
Definition head_batch (math : MathModule) (f : FaceInfo) : list OSCMessage :=
  match success f, euler f with
  | true, Some (pitch, yaw, roll) =>
      let '(tx, ty, tz) :=
        match translation f with
        | Some (t0, t1, t2) => (t0 / 1000, - t1 / 1000, t2 / 1000)
        | None => (0, 0, 0)
        end in
      [bone "Head" (tx, ty, tz) (euler_to_quaternion math (- pitch) (- yaw) roll);
       bone "Neck" (tx * (1#2), ty * (1#2), tz * (1#2))
         (euler_to_quaternion math (- pitch * (3#10)) (- yaw * (3#10)) (roll * (3#10)))]
  | _, _ => []
  end.

(** The offsets [(eye[2], eye[1])] of entry [i] of [eye_state], when the
    guards of lines 146 and 149 (162) let the entry through. *)
Definition eye_offsets (i : nat) (f : FaceInfo) : option (Q * Q) :=
  match eye_state f with
  | Some es =>
      if (2 <=? length es)%nat then
        match nth_error es i with
        | Some e =>
            if (3 <=? length e)%nat then
              match nth_error e 2, nth_error e 1 with
              | Some x, Some y => Some (x, y)
              | _, _ => None
              end
            else None
        | None => None
        end
      else None
  | None => None
  end.

(** Lines 144-168. *)
Definition eye_bone_batch (math : MathModule) (f : FaceInfo) : list OSCMessage :=
  match eye_offsets 0 f with
  | Some (x, y) =>
      [bone "RightEye" (0, 0, 0)
         (euler_to_quaternion math (gaze_degrees 10 y) (gaze_degrees 15 x) 0)]
  | None => []
  end ++
  match eye_offsets 1 f with
  | Some (x, y) =>
      [bone "LeftEye" (0, 0, 0)
         (euler_to_quaternion math (gaze_degrees 10 y) (gaze_degrees 15 x) 0)]
  | None => []
  end.

(** Lines 192-237, for a features dict. *)
Definition feature_batch_of (features : gmap string Q) : list OSCMessage :=
  match features !! "mouth_open" with
  | Some v =>
      let mouth_open := py_min 1 (py_max 0 v) in
      [blend "jawOpen" mouth_open; blend "A" mouth_open;
       blend "Aa" mouth_open; blend "A" mouth_open]
  | None => []
  end ++
  match features !! "mouth_wide" with
  | Some mouth_wide =>
      if py_gt mouth_wide 0 then
        [blend "mouthSmileLeft" (py_min 1 mouth_wide);
         blend "mouthSmileRight" (py_min 1 mouth_wide)]
      else
        [blend "mouthFrownLeft" (py_min 1 (- mouth_wide));
         blend "mouthFrownRight" (py_min 1 (- mouth_wide))]
  | None => []
  end ++
  match features !! "mouth_corner_updown_l" with
  | Some val =>
      if py_gt val 0 then [blend "mouthSmileLeft" (py_min 1 val)]
      else [blend "mouthFrownLeft" (py_min 1 (- val))]
  | None => []
  end ++
  match features !! "mouth_corner_updown_r" with
  | Some val =>
      if py_gt val 0 then [blend "mouthSmileRight" (py_min 1 val)]
      else [blend "mouthFrownRight" (py_min 1 (- val))]
  | None => []
  end ++
  match features !! "eyebrow_updown_l" with
  | Some val =>
      if py_gt val 0 then [blend "browInnerUp" (py_min 1 val)]
      else [blend "browDownLeft" (py_min 1 (- val))]
  | None => []
  end ++
  match features !! "eyebrow_updown_r" with
  | Some val =>
      if py_gt val 0 then [blend "browInnerUp" (py_min 1 val)]
      else [blend "browDownRight" (py_min 1 (- val))]
  | None => []
  end.

(** Lines 187-237. *)
Definition feature_batch (f : FaceInfo) : list OSCMessage :=
  match current_features f with
  | Some features => feature_batch_of features
  | None => []
  end.

(** Lines 246-258, for the right eye's offsets. *)
Definition gaze_right_batch (x y : Q) : list OSCMessage :=
  let gaze_x_r := (x - 16) / 16 in
  let gaze_y_r := (y - 16) / 16 in
  [blend "eyeLookOutRight" (py_max 0 gaze_x_r);
   blend "eyeLookInRight" (py_max 0 (- gaze_x_r));
   blend "eyeLookUpRight" (py_max 0 (- gaze_y_r));
   blend "eyeLookDownRight" (py_max 0 gaze_y_r);
   blend "EyeLookOutRight" (py_max 0 gaze_x_r);
   blend "EyeLookInRight" (py_max 0 (- gaze_x_r));
   blend "EyeLookUpRight" (py_max 0 (- gaze_y_r));
   blend "EyeLookDownRight" (py_max 0 gaze_y_r)].

(** Lines 263-275, for the left eye's offsets. *)
Definition gaze_left_batch (x y : Q) : list OSCMessage :=
  let gaze_x_l := (x - 16) / 16 in
  let gaze_y_l := (y - 16) / 16 in
  [blend "eyeLookInLeft" (py_max 0 gaze_x_l);
   blend "eyeLookOutLeft" (py_max 0 (- gaze_x_l));
   blend "eyeLookUpLeft" (py_max 0 (- gaze_y_l));
   blend "eyeLookDownLeft" (py_max 0 gaze_y_l);
   blend "EyeLookInLeft" (py_max 0 gaze_x_l);
   blend "EyeLookOutLeft" (py_max 0 (- gaze_x_l));
   blend "EyeLookUpLeft" (py_max 0 (- gaze_y_l));
   blend "EyeLookDownLeft" (py_max 0 gaze_y_l)].

(** Lines 239-275. *)
Definition gaze_batch (f : FaceInfo) : list OSCMessage :=
  match eye_offsets 0 f with
  | Some (x, y) => gaze_right_batch x y
  | None => []
  end ++
  match eye_offsets 1 f with
  | Some (x, y) => gaze_left_batch x y
  | None => []
  end.

(** The whole frame of a snapshot, in the order of the source. *)
Definition encode_frame (math : MathModule) (self : VMCSender) (now : Q)
    (f : FaceInfo) : list OSCMessage :=
  ok_msg f :: time_msg self now :: root_msg ::
  head_batch math f ++ eye_bone_batch math f ++ blink_batch f ++
  feature_batch f ++ gaze_batch f ++ [apply_msg].

(** The keys of [current_features] that [send_tracking_data] reads. *)
Definition feature_keys : list string :=
  ["mouth_open"; "mouth_wide"; "mouth_corner_updown_l";
   "mouth_corner_updown_r"; "eyebrow_updown_l"; "eyebrow_updown_r"].

(** A snapshot with its features replaced. *)
Definition with_features (f : FaceInfo) (features : option (gmap string Q)) : FaceInfo :=
  mkFace (success f) (euler f) (translation f) (eye_state f) (eye_blink f) features.

(** ** The loop of [facetracker_vmc.py] over the faces of one video frame

    Lines 153-161: each face is copied, an absent [eye_blink] is set to
    [[1, 1]] on the copy, and the copy is sent.  [clock k] is the reading
    of [time.time()] inside call number [k] of [send_tracking_data]. *)

Definition with_default_blink (f : FaceInfo) : FaceInfo :=
  match eye_blink f with
  | None =>
      mkFace (success f) (euler f) (translation f) (eye_state f) (Some (1, 1))
        (current_features f)
  | Some _ => f
  end.

Fixpoint send_faces (math : MathModule) (vmc_sender : VMCSender) (clock : nat -> Q)
    (k : nat) (faces : list FaceInfo) : M unit :=
  match faces with
  | [] => ret tt
  | f :: rest =>
      send_tracking_data math vmc_sender (clock k) (Some (with_default_blink f)) ;;
      send_faces math vmc_sender clock (S k) rest
  end.

(** The frames of the faces of one video frame, one after the other. *)
Fixpoint faces_frames (math : MathModule) (vmc_sender : VMCSender) (clock : nat -> Q)
    (k : nat) (faces : list FaceInfo) : list OSCMessage :=
  match faces with
  | [] => []
  | f :: rest =>
      frame math vmc_sender (clock k) (with_default_blink f)
      ++ faces_frames math vmc_sender clock (S k) rest
  end.

(** Tracking found a face and fitted a pose: the guard of line 122. *)
Definition pose_known (f : FaceInfo) : bool :=
  success f && match euler f with Some _ => true | None => false end.

(** The position the [Head] bone is given (lines 130-135). *)
Definition head_position (f : FaceInfo) : Q * Q * Q :=
  match translation f with
  | Some (t0, t1, t2) => (t0 / 1000, - t1 / 1000, t2 / 1000)
  | None => (0, 0, 0)
  end.

(** The ARKit name and the alternative name of each gaze shape. *)
Definition gaze_name_pairs : list (string * string) :=
  [("eyeLookOutRight", "EyeLookOutRight"); ("eyeLookInRight", "EyeLookInRight");
   ("eyeLookUpRight", "EyeLookUpRight"); ("eyeLookDownRight", "EyeLookDownRight");
   ("eyeLookInLeft", "EyeLookInLeft"); ("eyeLookOutLeft", "EyeLookOutLeft");
   ("eyeLookUpLeft", "EyeLookUpLeft"); ("eyeLookDownLeft", "EyeLookDownLeft")].

(** The gaze shapes that look in opposite directions, eye by eye. *)
Definition gaze_opposites : list (string * string) :=
  [("eyeLookOutRight", "eyeLookInRight"); ("eyeLookUpRight", "eyeLookDownRight");
   ("EyeLookOutRight", "EyeLookInRight"); ("EyeLookUpRight", "EyeLookDownRight");
   ("eyeLookInLeft", "eyeLookOutLeft"); ("eyeLookUpLeft", "eyeLookDownLeft");
   ("EyeLookInLeft", "EyeLookOutLeft"); ("EyeLookUpLeft", "EyeLookDownLeft")].

(** The messages that set the left corner of the mouth. *)
Definition is_left_corner (m : OSCMessage) : bool :=
  is_blend_of "mouthSmileLeft" m || is_blend_of "mouthFrownLeft" m.

(** The sum of the squares of a quaternion's components. *)
Definition quat_norm2 (q : Q * Q * Q * Q) : Q :=
  let '(qx, qy, qz, qw) := q in qx * qx + qy * qy + qz * qz + qw * qw.

(** A [math] module with rational values that satisfies
    [cos x ^ 2 + sin x ^ 2 = 1] (the half-angle parametrisation of the
    circle), to run the model where that identity is assumed. *)
Definition circle_math : MathModule :=
  mkMath (fun d => d * (355 # 113) / 180)
         (fun x => (1 - x * x) / (1 + x * x))
         (fun x => (2 * x) / (1 + x * x)).

(** A face with a pose, a position and both eyes looking to a side. *)
Definition face_posed : FaceInfo :=
  mkFace true (Some (10, -20, 5)) (Some (100, 50, 600))
    (Some [[1; 20; 8; 1]; [1; 12; 30; 1]]) (Some (1 # 2, 1 # 4))
    (Some {[ "mouth_wide" := 1 # 2 ]}).

(** A face whose features hold both [mouth_wide] and
    [mouth_corner_updown_l], with opposite signs. *)
Definition face_corner : FaceInfo :=
  mkFace true None None None None
    (Some (<[ "mouth_corner_updown_l" := - (1 # 4) ]> {[ "mouth_wide" := 1 # 2 ]})).

(** The messages with a given address. *)
Definition has_address (a : string) (m : OSCMessage) : bool :=
  String.eqb (address m) a.

(** ** The self-test of [vmc_sender.py] (lines 281-318)

    [python vmc_sender.py] sends a hundred rounds of test data.  [now] is
    the reading of [time.time()] in the round; [time.sleep] has no effect
    on the client. *)

(** [for x in l: body(x)] *)
Fixpoint for_in {A} (l : list A) (body : A -> M unit) : M unit :=
  match l with
  | [] => ret tt
  | x :: rest => body x ;; for_in rest body
  end.

(** One round of the loop, lines 296-315. *)
Definition test_round (math : MathModule) (now : Q) (i : nat) : M unit :=
  let i := inject_Z (Z.of_nat i) in
  send_available 1 0 0 ;;
  send_time now ;;
  let blink_val := Qabs (sin math (i * (1 # 10))) in
  send_blend_shape "eyeBlinkLeft" blink_val ;;
  send_blend_shape "eyeBlinkRight" blink_val ;;
  send_blend_shape "Blink_L" blink_val ;;
  send_blend_shape "Blink_R" blink_val ;;
  let mouth_val := Qabs (sin math (i * (1 # 20))) in
  send_blend_shape "jawOpen" mouth_val ;;
  send_blend_shape "A" mouth_val ;;
  send_blend_shape_apply ;;
  let '(qx, qy, qz, qw) :=
    euler_to_quaternion math 0 (sin math (i * (1 # 50)) * (3 # 10)) 0 in
  send_bone_transform "Head" 0 0 0 qx qy qz qw.

(** Lines 295-317: [for i in range(100)]. *)
Definition self_test (math : MathModule) (clock : nat -> Q) : M unit :=
  for_in (seq 0 100) (fun i => test_round math (clock i) i).

(** The ten messages of one round. *)
Definition test_batch (math : MathModule) (now : Q) (i : nat) : list OSCMessage :=
  let x := inject_Z (Z.of_nat i) in
  let blink_val := Qabs (sin math (x * (1 # 10))) in
  let mouth_val := Qabs (sin math (x * (1 # 20))) in
  [mkMsg "/VMC/Ext/OK" [OInt 1; OInt 0; OInt 0];
   mkMsg "/VMC/Ext/T" [OFloat now];
   blend "eyeBlinkLeft" blink_val; blend "eyeBlinkRight" blink_val;
   blend "Blink_L" blink_val; blend "Blink_R" blink_val;
   blend "jawOpen" mouth_val; blend "A" mouth_val;
   apply_msg;
   bone "Head" (0, 0, 0)
     (euler_to_quaternion math 0 (sin math (x * (1 # 50)) * (3 # 10)) 0)].

(** The rounds [a, a + 1, ..., a + n - 1], one after the other. *)
Definition test_rounds (math : MathModule) (clock : nat -> Q) (a n : nat)
  : list OSCMessage :=
  flat_map (fun i => test_batch math (clock i) i) (seq a n).

(** ** [get_selected_quality] of [gui.py] (lines 291-300)

    [camera_modes] is the global list of [(width, height, fps, label)],
    [selected] the value of [quality_var]. *)

Fixpoint get_selected_quality (camera_modes : list (Z * Z * Z * string))
    (selected : string) : Z * Z * Z :=
  match camera_modes with
  | [] => (640, 480, 30)%Z
  | (w, h, fps, label) :: rest =>
      if String.eqb label selected then (w, h, fps)
      else get_selected_quality rest selected
  end.

(** The labels offered in the quality dropdown (line 268). *)
Definition quality_options (camera_modes : list (Z * Z * Z * string)) : list string :=
  map snd camera_modes.

(** The fallback modes of [get_camera_modes] (lines 249-252), sorted. *)
Definition fallback_modes : list (Z * Z * Z * string) :=
  [(1280, 720, 30, "1280x720 @ 30fps"); (640, 480, 30, "640x480 @ 30fps")]%Z.

(** * Proofs *)

(** ** Arithmetic of [py_gt], [py_max] and [py_min] *)

Lemma py_gt_true (a b : Q) : py_gt a b = true <-> b < a.
Proof.
  unfold py_gt. rewrite negb_true_iff, <- not_true_iff_false, Qle_bool_iff.
  split; [apply Qnot_le_lt | apply Qlt_not_le].
Qed.

Lemma py_gt_false (a b : Q) : py_gt a b = false <-> a <= b.
Proof.
  unfold py_gt. rewrite negb_false_iff. apply Qle_bool_iff.
Qed.

Ltac py_case :=
  match goal with
  | |- context [py_gt ?a ?b] =>
      lazymatch a with
      | context [py_gt _ _] => fail
      | _ =>
          lazymatch b with
          | context [py_gt _ _] => fail
          | _ =>
              let H := fresh "Hgt" in
              destruct (py_gt a b) eqn:H;
              [apply py_gt_true in H | apply py_gt_false in H]
          end
      end
  end.

Ltac py_cases := unfold py_max, py_min in *; repeat py_case.

Lemma clamp_unit (v : Q) : 0 <= py_min 1 (py_max 0 v) <= 1.
Proof. py_cases; lra. Qed.

Lemma clamp_unit_id (v : Q) : 0 <= v <= 1 -> py_min 1 (py_max 0 v) == v.
Proof. intros Hv. py_cases; lra. Qed.

Lemma clamp_sym (g : Q) : -1 <= py_max (-1) (py_min 1 g) <= 1.
Proof. py_cases; lra. Qed.

Lemma rectify_nonneg (g : Q) : 0 <= py_max 0 g.
Proof. py_cases; lra. Qed.

Lemma min1_pos (v : Q) : 0 < v -> 0 <= py_min 1 v <= 1.
Proof. intros Hv. py_cases; lra. Qed.

Lemma min1_neg (v : Q) : v <= 0 -> 0 <= py_min 1 (- v) <= 1.
Proof. intros Hv. py_cases; lra. Qed.

(** ** Rules for [plays] and [emits] *)

Lemma play_app (l1 l2 : list OSCMessage) (c : SimpleUDPClient) :
  play (l1 ++ l2) c = (play l1 ;; play l2) c.
Proof.
  revert c. induction l1 as [|m l1 IH]; intros c; [reflexivity|].
  cbn [app play]. unfold bind in *.
  destruct (send_message (address m) (args m) c) as [[[]|e] c']; [|reflexivity].
  apply IH.
Qed.

Lemma plays_ret : plays (ret tt) [].
Proof. intros c. reflexivity. Qed.

Lemma plays_send (a : string) (xs : list OSCArg) :
  plays (send_message a xs) [mkMsg a xs].
Proof.
  intros c. cbn [play address args]. unfold bind, send_message, ret.
  destruct (sendto_ok c (calls c)); reflexivity.
Qed.

Lemma plays_seq (m1 m2 : M unit) (l1 l2 : list OSCMessage) :
  plays m1 l1 -> plays m2 l2 -> plays (m1 ;; m2) (l1 ++ l2).
Proof.
  intros H1 H2 c. rewrite play_app. unfold bind. rewrite H1.
  destruct (play l1 c) as [[[]|e] c']; [apply H2 | reflexivity].
Qed.

Lemma plays_getitem {A} (l : list A) (i : nat) (a : A) (k : A -> M unit)
    (L : list OSCMessage) :
  nth_error l i = Some a -> plays (k a) L -> plays (x <~ getitem l i ;; k x) L.
Proof.
  intros Hi Hk c. unfold bind, getitem. rewrite Hi. apply Hk.
Qed.

Lemma emits_ret (P : OSCMessage -> Prop) : emits P (ret tt).
Proof. exists []. split; [apply plays_ret | constructor]. Qed.

Lemma emits_send (P : OSCMessage -> Prop) (a : string) (xs : list OSCArg) :
  P (mkMsg a xs) -> emits P (send_message a xs).
Proof.
  intros HP. exists [mkMsg a xs]. split; [apply plays_send | repeat constructor; exact HP].
Qed.

Lemma emits_seq (P : OSCMessage -> Prop) (m1 m2 : M unit) :
  emits P m1 -> emits P m2 -> emits P (m1 ;; m2).
Proof.
  intros (l1 & H1 & F1) (l2 & H2 & F2). exists (l1 ++ l2).
  split; [apply plays_seq; assumption | apply Forall_app; split; assumption].
Qed.

Lemma emits_getitem {A} (P : OSCMessage -> Prop) (l : list A) (i : nat)
    (k : A -> M unit) :
  (i < length l)%nat -> (forall a, emits P (k a)) -> emits P (x <~ getitem l i ;; k x).
Proof.
  intros Hi Hk. destruct (nth_error l i) as [a|] eqn:E.
  - destruct (Hk a) as (L & HL & FL). exists L. split; [|exact FL].
    eapply plays_getitem; eassumption.
  - apply nth_error_None in E. lia.
Qed.

(** What [play] does on a client. *)

Lemma play_accepted (l : list OSCMessage) (c : SimpleUDPClient) :
  (forall j, (j < length l)%nat -> sendto_ok c (j + calls c) = true) ->
  play l c = (Ok tt, push l c).
Proof.
  revert c. induction l as [|m l IH]; intros c Hc.
  - unfold push. destruct c. cbn. rewrite app_nil_r. reflexivity.
  - destruct m as [a xs]. cbn [play address args]. unfold bind, send_message.
    pose proof (Hc 0%nat ltac:(cbn; lia)) as H0. cbn in H0. rewrite H0.
    rewrite IH.
    + unfold push. cbn [sent calls sendto_ok length]. f_equal. f_equal.
      * rewrite <- app_assoc. reflexivity.
      * lia.
    + intros j Hj. cbn [sent calls sendto_ok].
      replace (j + S (calls c))%nat with (S j + calls c)%nat by lia.
      apply Hc. cbn. lia.
Qed.

Lemma play_refused (l : list OSCMessage) (k : nat) (c : SimpleUDPClient) :
  (k < length l)%nat ->
  (forall j, (j < k)%nat -> sendto_ok c (j + calls c) = true) ->
  sendto_ok c (k + calls c) = false ->
  play l c = (Raise OSError, cut k l c).
Proof.
  revert k c. induction l as [|m l IH]; intros k c Hk Hok Hko; [cbn in Hk; lia|].
  destruct m as [a xs]. cbn [play address args]. unfold bind, send_message.
  destruct k as [|k].
  - cbn in Hko. rewrite Hko. unfold cut. cbn. rewrite app_nil_r. reflexivity.
  - pose proof (Hok 0%nat ltac:(lia)) as H0. cbn in H0. rewrite H0.
    rewrite (IH k).
    + unfold cut. cbn [sent calls sendto_ok firstn]. f_equal. f_equal.
      * rewrite <- app_assoc. reflexivity.
      * lia.
    + cbn in Hk. lia.
    + intros j Hj. cbn [sent calls sendto_ok].
      replace (j + S (calls c))%nat with (S j + calls c)%nat by lia.
      apply Hok. lia.
    + cbn [sent calls sendto_ok].
      replace (k + S (calls c))%nat with (S k + calls c)%nat by lia. exact Hko.
Qed.

Lemma plays_reliable (m : M unit) (l : list OSCMessage) (c : SimpleUDPClient) :
  plays m l -> reliable c -> m c = (Ok tt, push l c).
Proof.
  intros Hm Hc. rewrite Hm. apply play_accepted. intros j _. apply Hc.
Qed.

Lemma plays_unique (m : M unit) (l1 l2 : list OSCMessage) :
  plays m l1 -> plays m l2 -> l1 = l2.
Proof.
  intros H1 H2.
  assert (Hp : reliable pristine) by (intros n; reflexivity).
  pose proof (plays_reliable m l1 pristine H1 Hp) as E1.
  pose proof (plays_reliable m l2 pristine H2 Hp) as E2.
  rewrite E1 in E2. injection E2 as E2. exact E2.
Qed.

(** ** The sections of [send_tracking_data], one by one *)

Ltac in_list := cbn; repeat first [left; reflexivity | right].

Ltac emit_step :=
  first [ apply emits_ret
        | apply emits_seq
        | apply emits_send ].

Ltac play_step :=
  first [ eapply plays_getitem; [reflexivity|]; cbv beta
        | eapply plays_seq
        | apply plays_send
        | apply plays_ret ].

Section Blocks.

Variable math : MathModule.

Lemma gaze_degrees_15 (o : Q) : -15 <= gaze_degrees 15 o <= 15.
Proof.
  unfold gaze_degrees. pose proof (clamp_sym ((o - 16) / 16)) as H. lra.
Qed.

Lemma gaze_degrees_10 (o : Q) : -10 <= gaze_degrees 10 o <= 10.
Proof.
  unfold gaze_degrees. pose proof (clamp_sym ((o - 16) / 16)) as H. lra.
Qed.

Lemma eye_bone_msg_intro (f : FaceInfo) (i : nat) (n : string)
    (es : list (list Q)) (eye : list Q) (x y : Q) :
  In (i, n) [(0%nat, "RightEye"); (1%nat, "LeftEye")] ->
  eye_state f = Some es ->
  nth_error es i = Some eye ->
  nth_error eye 2 = Some x ->
  nth_error eye 1 = Some y ->
  eye_bone_msg math f
    (bone n (0, 0, 0)
       (euler_to_quaternion math (gaze_degrees 10 y) (gaze_degrees 15 x) 0)).
Proof.
  intros Hn Hes Heye Hx Hy. exists i, n, es, eye, x, y. tauto.
Qed.

Lemma head_neck_emits (f : FaceInfo) :
  emits (bone_in ["Head"; "Neck"]) (send_head_neck math f).
Proof.
  unfold send_head_neck.
  destruct (success f); [|destruct (euler f); apply emits_ret].
  destruct (euler f) as [[[pitch yaw] roll]|]; [|apply emits_ret].
  destruct (translation f) as [[[t0 t1] t2]|];
    cbv beta iota zeta delta [euler_to_quaternion];
    (apply emits_seq; apply emits_send;
     eexists _, (_, _, _), (_, _, _, _); (split; [reflexivity | in_list])).
Qed.

Lemma blinks_plays (f : FaceInfo) :
  plays (send_blinks f)
    match eye_blink f with
    | Some (b0, b1) =>
        let r := 1 - py_min 1 (py_max 0 b0) in
        let l := 1 - py_min 1 (py_max 0 b1) in
        [blend "eyeBlinkRight" r; blend "eyeBlinkLeft" l;
         blend "Blink_R" r; blend "Blink_L" l; blend "Blink" ((r + l) / 2)]
    | None => []
    end.
Proof.
  unfold send_blinks. destruct (eye_blink f) as [[b0 b1]|]; [|apply plays_ret].
  cbv zeta.
  repeat (apply (plays_seq _ _ [_]); [apply plays_send|]).
  apply plays_send.
Qed.

Lemma features_emits (f : FaceInfo) :
  emits (blend_in feature_names unit_range) (send_features f).
Proof.
  unfold send_features. destruct (current_features f) as [features|]; [|apply emits_ret].
  repeat apply emits_seq;
    match goal with
    | |- emits _ (match ?o with Some _ => _ | None => _ end) =>
        destruct o as [v|]; [|apply emits_ret]
    end;
    cbv zeta;
    try match goal with
      | |- emits _ (if py_gt ?a ?b then _ else _) =>
          let H := fresh "Hv" in
          destruct (py_gt a b) eqn:H;
          [apply py_gt_true in H | apply py_gt_false in H]
      end;
    repeat emit_step;
    (eexists _, _; split; [reflexivity|]; split; [in_list|]);
    first [apply clamp_unit | apply min1_pos; assumption | apply min1_neg; assumption].
Qed.

Lemma gaze_shapes_emits (f : FaceInfo) :
  emits (blend_in gaze_names nonneg) (send_gaze_shapes f).
Proof.
  unfold send_gaze_shapes. destruct (eye_state f) as [es|]; [|apply emits_ret].
  destruct (2 <=? length es)%nat eqn:Hes; [|apply emits_ret].
  apply Nat.leb_le in Hes.
  apply emits_getitem; [lia|]. intros right_eye.
  apply emits_seq.
  - destruct (3 <=? length right_eye)%nat eqn:Hr; [|apply emits_ret].
    apply Nat.leb_le in Hr.
    apply emits_getitem; [lia|]. intros e2. cbv zeta.
    apply emits_getitem; [lia|]. intros e1.
    repeat emit_step;
      (eexists _, _; split; [reflexivity|]; split; [in_list | apply rectify_nonneg]).
  - apply emits_getitem; [lia|]. intros left_eye.
    destruct (3 <=? length left_eye)%nat eqn:Hl; [|apply emits_ret].
    apply Nat.leb_le in Hl.
    apply emits_getitem; [lia|]. intros e2. cbv zeta.
    apply emits_getitem; [lia|]. intros e1.
    repeat emit_step;
      (eexists _, _; split; [reflexivity|]; split; [in_list | apply rectify_nonneg]).
Qed.

Lemma eye_bones_plays (f : FaceInfo) :
  exists L,
    plays (send_eye_bones math f) L
    /\ Forall (eye_bone_msg math f) L
    /\ existsb (is_bone_of "RightEye") L = eye_entry_ok 0 f
    /\ existsb (is_bone_of "LeftEye") L = eye_entry_ok 1 f.
Proof.
  unfold send_eye_bones, eye_entry_ok.
  destruct (eye_state f) as [es|] eqn:Hes;
    [|exists []; split; [apply plays_ret | split; [constructor | split; reflexivity]]].
  destruct es as [|e0 [|e1 rest]];
    try (exists []; split; [apply plays_ret | split; [constructor | split; reflexivity]]).
  destruct e0 as [|a0 [|a1 [|a2 ra]]]; destruct e1 as [|b0 [|b1 [|b2 rb]]];
    cbn [length Nat.leb nth_error andb];
    (eexists; split; [repeat play_step|]);
    cbn [app];
    (split; [|split; reflexivity]);
    repeat (apply List.Forall_cons || apply List.Forall_nil);
    (eapply eye_bone_msg_intro; [in_list | exact Hes | reflexivity ..]).
Qed.

End Blocks.

(** ** The whole frame *)

Section Frame.

Variable math : MathModule.
Variable self : VMCSender.
Variable now : Q.

Lemma blink_batch_range (f : FaceInfo) :
  Forall (blend_in blink_names unit_range) (blink_batch f).
Proof.
  unfold blink_batch. destruct (eye_blink f) as [[b0 b1]|]; [|constructor].
  cbv zeta.
  pose proof (clamp_unit b0) as H0. pose proof (clamp_unit b1) as H1.
  assert (Hr : unit_range (1 - py_min 1 (py_max 0 b0))) by (unfold unit_range; lra).
  assert (Hl : unit_range (1 - py_min 1 (py_max 0 b1))) by (unfold unit_range; lra).
  assert (Hb : unit_range
                 ((1 - py_min 1 (py_max 0 b0) + (1 - py_min 1 (py_max 0 b1))) / 2)).
  { unfold unit_range in *. split.
    - apply Qle_shift_div_l; lra.
    - apply Qle_shift_div_r; lra. }
  repeat (apply List.Forall_cons || apply List.Forall_nil);
    (eexists _, _; split; [reflexivity|]; split;
     [in_list | match goal with H : ?G |- ?G => exact H end]).
Qed.

(** The frame is the three opening messages, the five sections of the
    source in their order, and the closing [Blend/Apply]. *)
Lemma frame_sections (f : FaceInfo) :
  exists Lh Le Lf Lg,
    plays (send_tracking_data math self now (Some f))
      (ok_msg f :: time_msg self now :: root_msg ::
       Lh ++ Le ++ blink_batch f ++ Lf ++ Lg ++ [apply_msg])
    /\ Forall (bone_in ["Head"; "Neck"]) Lh
    /\ (Forall (eye_bone_msg math f) Le
        /\ existsb (is_bone_of "RightEye") Le = eye_entry_ok 0 f
        /\ existsb (is_bone_of "LeftEye") Le = eye_entry_ok 1 f)
    /\ Forall (blend_in feature_names unit_range) Lf
    /\ Forall (blend_in gaze_names nonneg) Lg.
Proof.
  destruct (head_neck_emits math f) as (Lh & Ph & Fh).
  destruct (eye_bones_plays math f) as (Le & Pe & Fe).
  destruct (features_emits f) as (Lf & Pf & Ff).
  destruct (gaze_shapes_emits f) as (Lg & Pg & Fg).
  exists Lh, Le, Lf, Lg. repeat split; try tauto.
  unfold send_tracking_data.
  apply (plays_seq _ _ [_]); [apply plays_send|].
  apply (plays_seq _ _ [_]); [apply plays_send|].
  apply (plays_seq _ _ [_]); [apply plays_send|].
  repeat (apply plays_seq; [first [assumption | apply blinks_plays]|]).
  apply plays_send.
Qed.

Lemma frame_plays (f : FaceInfo) :
  plays (send_tracking_data math self now (Some f)) (frame math self now f).
Proof.
  destruct (frame_sections f) as (Lh & Le & Lf & Lg & HL & _).
  unfold frame.
  rewrite (plays_reliable _ _ pristine HL) by (intros n; reflexivity).
  exact HL.
Qed.

Lemma frame_reliable (f : FaceInfo) (c : SimpleUDPClient) :
  reliable c ->
  send_tracking_data math self now (Some f) c = (Ok tt, push (frame math self now f) c).
Proof. apply plays_reliable, frame_plays. Qed.

Lemma frame_shape (f : FaceInfo) :
  exists Lh Le Lf Lg,
    frame math self now f =
      ok_msg f :: time_msg self now :: root_msg ::
      Lh ++ Le ++ blink_batch f ++ Lf ++ Lg ++ [apply_msg]
    /\ Forall (bone_in ["Head"; "Neck"]) Lh
    /\ (Forall (eye_bone_msg math f) Le
        /\ existsb (is_bone_of "RightEye") Le = eye_entry_ok 0 f
        /\ existsb (is_bone_of "LeftEye") Le = eye_entry_ok 1 f)
    /\ Forall (blend_in feature_names unit_range) Lf
    /\ Forall (blend_in gaze_names nonneg) Lg.
Proof.
  destruct (frame_sections f) as (Lh & Le & Lf & Lg & HL & Hrest).
  exists Lh, Le, Lf, Lg. split; [|exact Hrest].
  eapply plays_unique; [apply frame_plays | exact HL].
Qed.

Lemma frame_body (f : FaceInfo) :
  exists body,
    frame math self now f = ok_msg f :: body ++ [apply_msg]
    /\ Forall (body_msg math self now f) body.
Proof.
  destruct (frame_shape f) as (Lh & Le & Lf & Lg & -> & Fh & (Fe & _) & Ff & Fg).
  pose proof (blink_batch_range f) as Fb.
  exists (time_msg self now :: root_msg :: Lh ++ Le ++ blink_batch f ++ Lf ++ Lg).
  split.
  - cbn [app]. rewrite <- !List.app_assoc. reflexivity.
  - unfold body_msg.
    apply List.Forall_cons; [tauto|]. apply List.Forall_cons; [tauto|].
    repeat (apply Forall_app; split);
      (eapply List.Forall_impl; [|eassumption]); cbv beta; tauto.
Qed.

End Frame.

Lemma pristine_reliable : reliable pristine.
Proof. intros n. reflexivity. Qed.

(** ** The claims *)

(** C9. With [face = None], [send_tracking_data] returns at once: no
    message is sent, not even the availability message, and the client is
    left as it was. *)
Theorem none_face_sends_nothing (math : MathModule) (self : VMCSender) (now : Q)
    (c : SimpleUDPClient) :
  send_tracking_data math self now None c = (Ok tt, c).
Proof. reflexivity. Qed.

Lemma body_msg_address (math : MathModule) (self : VMCSender) (now : Q)
    (f : FaceInfo) (m : OSCMessage) :
  body_msg math self now f m ->
  address m = "/VMC/Ext/T" \/ address m = "/VMC/Ext/Root/Pos"
  \/ address m = "/VMC/Ext/Bone/Pos" \/ address m = "/VMC/Ext/Blend/Val".
Proof.
  intros [->|[->|[H|[H|[H|[H|H]]]]]].
  - left. reflexivity.
  - right. left. reflexivity.
  - destruct H as (n & [[px py] pz] & [[[qx qy] qz] qw] & -> & _).
    right. right. left. reflexivity.
  - destruct H as (i & n & es & eye & x & y & _ & _ & _ & _ & _ & ->).
    right. right. left. reflexivity.
  - destruct H as (n & w & -> & _). do 3 right. reflexivity.
  - destruct H as (n & w & -> & _). do 3 right. reflexivity.
  - destruct H as (n & w & -> & _). do 3 right. reflexivity.
Qed.

(** C2. On a socket that accepts every datagram, the frame of a snapshot
    starts with [/VMC/Ext/OK], ends with [/VMC/Ext/Blend/Apply], which
    occurs nowhere else, and every [/VMC/Ext/Blend/Val] stands before that
    last message. *)
Theorem frame_starts_ok_ends_apply (math : MathModule) (self : VMCSender) (now : Q)
    (f : FaceInfo) (c : SimpleUDPClient) :
  reliable c ->
  exists body,
    send_tracking_data math self now (Some f) c
    = (Ok tt,
       push (mkMsg "/VMC/Ext/OK" [OInt (if success f then 1 else 0); OInt 3; OInt 1]
             :: body ++ [mkMsg "/VMC/Ext/Blend/Apply" []]) c)
    /\ Forall (fun m => address m <> "/VMC/Ext/Blend/Apply") body
    /\ forall i m,
         nth_error
           (mkMsg "/VMC/Ext/OK" [OInt (if success f then 1 else 0); OInt 3; OInt 1]
            :: body ++ [mkMsg "/VMC/Ext/Blend/Apply" []]) i = Some m ->
         address m = "/VMC/Ext/Blend/Val" ->
         (i < S (length body))%nat.
Proof.
  intros Hc. destruct (frame_body math self now f) as (body & Hframe & Hbody).
  exists body. split; [|split].
  - rewrite (frame_reliable math self now f c Hc), Hframe. reflexivity.
  - eapply List.Forall_impl; [|exact Hbody]. cbv beta. intros m Hm.
    apply body_msg_address in Hm.
    destruct Hm as [E|[E|[E|E]]]; rewrite E; discriminate.
  - intros i m Hi Hval.
    destruct (Nat.lt_ge_cases i (S (length body))) as [Hlt|Hge]; [exact Hlt|].
    exfalso.
    change (nth_error ((ok_msg f :: body) ++ [apply_msg]) i = Some m) in Hi.
    rewrite nth_error_app2 in Hi by (cbn [length]; lia).
    cbn [length] in Hi.
    destruct (i - S (length body))%nat as [|j].
    + cbn in Hi. injection Hi as <-. discriminate Hval.
    + destruct j; discriminate Hi.
Qed.

Lemma frame_starts_ok_ends_apply_witness :
  reliable pristine /\
  exists body,
    send_tracking_data approx_math sender0 5 (Some face_wide_gaze) pristine
    = (Ok tt,
       push (mkMsg "/VMC/Ext/OK" [OInt 1; OInt 3; OInt 1]
             :: body ++ [mkMsg "/VMC/Ext/Blend/Apply" []]) pristine).
Proof.
  split; [exact pristine_reliable|].
  destruct (frame_starts_ok_ends_apply approx_math sender0 5 face_wide_gaze pristine
              pristine_reliable) as (body & Hrun & _).
  exists body. exact Hrun.
Defined.

Lemma frame_In (math : MathModule) (self : VMCSender) (now : Q)
    (f : FaceInfo) (m : OSCMessage) :
  In m (frame math self now f) ->
  m = ok_msg f \/ body_msg math self now f m \/ m = apply_msg.
Proof.
  destruct (frame_body math self now f) as (body & -> & Hbody).
  intros [<-|Hin]; [left; reflexivity|].
  apply in_app_or in Hin. destruct Hin as [Hin|[<-|[]]].
  - right. left. revert m Hin. apply List.Forall_forall. exact Hbody.
  - right. right. reflexivity.
Qed.

(** C10. On a socket that accepts every datagram, every
    [/VMC/Ext/Blend/Val] of the frame carries a name and a weight, and the
    weight is not negative. *)
Theorem blend_weights_nonneg (math : MathModule) (self : VMCSender) (now : Q)
    (f : FaceInfo) (c : SimpleUDPClient) :
  reliable c ->
  send_tracking_data math self now (Some f) c
  = (Ok tt, push (frame math self now f) c)
  /\ forall m,
       In m (frame math self now f) ->
       address m = "/VMC/Ext/Blend/Val" ->
       exists n w, m = mkMsg "/VMC/Ext/Blend/Val" [OStr n; OFloat w] /\ 0 <= w.
Proof.
  intros Hc. split; [apply frame_reliable; exact Hc|].
  intros m Hin Hval. apply frame_In in Hin.
  destruct Hin as [->|[Hb| ->]]; [discriminate Hval| |discriminate Hval].
  destruct Hb as [->|[->|[H|[H|[H|[H|H]]]]]];
    try discriminate Hval.
  - destruct H as (n & [[px py] pz] & [[[qx qy] qz] qw] & -> & _).
    discriminate Hval.
  - destruct H as (i & n & es & eye & x & y & _ & _ & _ & _ & _ & ->).
    discriminate Hval.
  - destruct H as (n & w & -> & _ & Hw). exists n, w. split; [reflexivity | apply Hw].
  - destruct H as (n & w & -> & _ & Hw). exists n, w. split; [reflexivity | apply Hw].
  - destruct H as (n & w & -> & _ & Hw). exists n, w. split; [reflexivity | exact Hw].
Qed.

Lemma blend_weights_nonneg_witness :
  reliable pristine /\
  forall m,
    In m (frame approx_math sender0 5 face_wide_gaze) ->
    address m = "/VMC/Ext/Blend/Val" ->
    exists n w, m = mkMsg "/VMC/Ext/Blend/Val" [OStr n; OFloat w] /\ 0 <= w.
Proof.
  split; [exact pristine_reliable|].
  exact (proj2 (blend_weights_nonneg approx_math sender0 5 face_wide_gaze pristine
                  pristine_reliable)).
Defined.

Lemma not_eye_bone_head_neck (m : OSCMessage) :
  bone_in ["Head"; "Neck"] m ->
  is_bone_of "RightEye" m || is_bone_of "LeftEye" m = false.
Proof.
  intros (n & [[px py] pz] & [[[qx qy] qz] qw] & -> & [<-|[<-|[]]]); reflexivity.
Qed.

Lemma not_eye_bone_blend (names : list string) (R : Q -> Prop) (m : OSCMessage) :
  blend_in names R m ->
  is_bone_of "RightEye" m || is_bone_of "LeftEye" m = false.
Proof.
  intros (n & w & -> & _). reflexivity.
Qed.

(** C7. The clamped degrees are within [-15, 15] (horizontal) and
    [-10, 10] (vertical) for every pixel offset, and on a socket that
    accepts every datagram each [RightEye] or [LeftEye] bone of the frame
    is turned by exactly these degrees of its entry's offsets. *)
Theorem eye_bone_degrees_bounded (math : MathModule) (self : VMCSender) (now : Q)
    (f : FaceInfo) (c : SimpleUDPClient) :
  reliable c ->
  send_tracking_data math self now (Some f) c
  = (Ok tt, push (frame math self now f) c)
  /\ (forall o, -15 <= gaze_degrees 15 o <= 15 /\ -10 <= gaze_degrees 10 o <= 10)
  /\ forall m,
       In m (frame math self now f) ->
       is_bone_of "RightEye" m || is_bone_of "LeftEye" m = true ->
       exists i n es eye x y,
         In (i, n) [(0%nat, "RightEye"); (1%nat, "LeftEye")]
         /\ eye_state f = Some es
         /\ nth_error es i = Some eye
         /\ nth_error eye 2 = Some x
         /\ nth_error eye 1 = Some y
         /\ m = bone n (0, 0, 0)
                  (euler_to_quaternion math (gaze_degrees 10 y) (gaze_degrees 15 x) 0)
         /\ -15 <= gaze_degrees 15 x <= 15
         /\ -10 <= gaze_degrees 10 y <= 10.
Proof.
  intros Hc. split; [apply frame_reliable; exact Hc|].
  split; [intros o; split; [apply gaze_degrees_15 | apply gaze_degrees_10]|].
  intros m Hin Heye. apply frame_In in Hin.
  destruct Hin as [->|[Hb| ->]]; [discriminate Heye| |discriminate Heye].
  destruct Hb as [->|[->|[H|[H|[H|[H|H]]]]]];
    try discriminate Heye;
    try (apply not_eye_bone_head_neck in H; congruence);
    try (apply not_eye_bone_blend in H; congruence).
  destruct H as (i & n & es & eye & x & y & H1 & H2 & H3 & H4 & H5 & H6).
  exists i, n, es, eye, x, y.
  repeat (split; [assumption|]).
  split; [apply gaze_degrees_15 | apply gaze_degrees_10].
Qed.

Lemma eye_bone_degrees_bounded_witness :
  reliable pristine /\
  send_tracking_data approx_math sender0 5 (Some face_wide_gaze) pristine
  = (Ok tt, push (frame approx_math sender0 5 face_wide_gaze) pristine).
Proof.
  split; [exact pristine_reliable|].
  exact (proj1 (eye_bone_degrees_bounded approx_math sender0 5 face_wide_gaze pristine
                  pristine_reliable)).
Defined.

Lemma existsb_none {A} (g : A -> bool) (P : A -> Prop) (l : list A) :
  Forall P l -> (forall x, P x -> g x = false) -> existsb g l = false.
Proof.
  intros Hl Hg. induction Hl as [|x l Hx _ IH]; [reflexivity|].
  cbn [existsb]. rewrite (Hg x Hx), IH. reflexivity.
Qed.

Lemma is_bone_of_head_neck (n : string) (m : OSCMessage) :
  In n ["RightEye"; "LeftEye"] -> bone_in ["Head"; "Neck"] m -> is_bone_of n m = false.
Proof.
  intros Hn Hm. apply not_eye_bone_head_neck in Hm.
  apply orb_false_elim in Hm. destruct Hm as [Hr Hl].
  destruct Hn as [<-|[<-|[]]]; assumption.
Qed.

Lemma is_bone_of_blend (n : string) (names : list string) (R : Q -> Prop)
    (m : OSCMessage) :
  blend_in names R m -> is_bone_of n m = false.
Proof. intros (n' & w & -> & _). reflexivity. Qed.

Lemma eye_bones_in_frame (math : MathModule) (self : VMCSender) (now : Q)
    (f : FaceInfo) (i : nat) (n : string) :
  In (i, n) [(0%nat, "RightEye"); (1%nat, "LeftEye")] ->
  existsb (is_bone_of n) (frame math self now f) = eye_entry_ok i f.
Proof.
  intros Hn.
  destruct (frame_shape math self now f)
    as (Lh & Le & Lf & Lg & -> & Fh & (Fe & Hr & Hl) & Ff & Fg).
  pose proof (blink_batch_range f) as Fb.
  assert (Hin : In n ["RightEye"; "LeftEye"]).
  { destruct Hn as [E|[E|[]]]; injection E as _ <-; in_list. }
  assert (He : existsb (is_bone_of n) Le = eye_entry_ok i f).
  { destruct Hn as [E|[E|[]]]; injection E as <- <-; assumption. }
  cbn [existsb]. rewrite !existsb_app, He.
  rewrite (existsb_none _ _ Lh Fh) by (intros x; apply is_bone_of_head_neck; exact Hin).
  rewrite (existsb_none _ _ _ Fb) by (intros x; apply is_bone_of_blend).
  rewrite (existsb_none _ _ Lf Ff) by (intros x; apply is_bone_of_blend).
  rewrite (existsb_none _ _ Lg Fg) by (intros x; apply is_bone_of_blend).
  cbn. rewrite !orb_false_r.
  destruct Hin as [<-|[<-|[]]]; reflexivity.
Qed.

(** C4, as the code has it. On a socket that accepts every datagram, the
    [RightEye] bone is in the frame exactly when [eye_state] is present
    with two entries at least and entry 0 has three items at least, and
    the [LeftEye] bone exactly when the same holds of entry 1: each eye has
    its own guard. *)
Theorem eye_bones_guarded_per_eye (math : MathModule) (self : VMCSender) (now : Q)
    (f : FaceInfo) (c : SimpleUDPClient) :
  reliable c ->
  send_tracking_data math self now (Some f) c
  = (Ok tt, push (frame math self now f) c)
  /\ existsb (is_bone_of "RightEye") (frame math self now f) = eye_entry_ok 0 f
  /\ existsb (is_bone_of "LeftEye") (frame math self now f) = eye_entry_ok 1 f.
Proof.
  intros Hc. split; [apply frame_reliable; exact Hc|].
  split; apply eye_bones_in_frame; in_list.
Qed.

Lemma eye_bones_guarded_per_eye_witness :
  reliable pristine /\
  existsb (is_bone_of "RightEye") (frame approx_math sender0 5 face_short_left)
  = eye_entry_ok 0 face_short_left.
Proof.
  split; [exact pristine_reliable|].
  exact (proj1 (proj2 (eye_bones_guarded_per_eye approx_math sender0 5 face_short_left
                         pristine pristine_reliable))).
Defined.

(** C4, as stated, fails: with a right entry of four items and a left
    entry of two, an eye bone is sent although not both entries have three
    items. *)
Lemma eye_bone_sent_with_short_left_entry :
  ~ (forall f,
       existsb (fun m => is_bone_of "RightEye" m || is_bone_of "LeftEye" m)
         (frame approx_math sender0 5 f)
       = eye_entry_ok 0 f && eye_entry_ok 1 f).
Proof.
  intros H. specialize (H face_short_left). vm_compute in H. discriminate H.
Qed.

Lemma is_blend_of_other (names : list string) (R : Q -> Prop) (n : string)
    (m : OSCMessage) :
  blend_in names R m -> ~ In n names -> is_blend_of n m = false.
Proof.
  intros (n' & w & -> & Hn' & _) Hn.
  unfold is_blend_of, is_blend_val, blend. cbn [address args].
  destruct (String.eqb n' n) eqn:E; [|reflexivity].
  apply String.eqb_eq in E. subst n'. contradiction.
Qed.

Lemma blink_names_not_feature (n : string) :
  In n blink_names -> ~ In n feature_names.
Proof.
  unfold blink_names, feature_names. cbn [In].
  intros Hb Hf.
  repeat match goal with H : _ \/ _ |- _ => destruct H as [H|H] end;
    try contradiction; subst n; discriminate.
Qed.

Lemma blink_names_not_gaze (n : string) :
  In n blink_names -> ~ In n gaze_names.
Proof.
  unfold blink_names, gaze_names. cbn [In].
  intros Hb Hf.
  repeat match goal with H : _ \/ _ |- _ => destruct H as [H|H] end;
    try contradiction; subst n; discriminate.
Qed.

(** C5. On a socket that accepts every datagram, a snapshot with
    [eye_blink = (r, l)], both in [0, 1], has in its frame the five
    messages [eyeBlinkRight], [eyeBlinkLeft], [Blink_R], [Blink_L],
    [Blink], in a row and nowhere else; the weight of an eye is
    [1 - clamp01(openness)], which is [1 - openness] here, and [Blink]
    carries the mean of the two; for [(1, 1)] all five weights are 0. *)
Theorem blink_shapes (math : MathModule) (self : VMCSender) (now : Q)
    (f : FaceInfo) (c : SimpleUDPClient) (r l : Q) :
  reliable c ->
  eye_blink f = Some (r, l) ->
  0 <= r <= 1 ->
  0 <= l <= 1 ->
  exists pre post wr wl wb,
    send_tracking_data math self now (Some f) c
    = (Ok tt,
       push (pre ++
             [mkMsg "/VMC/Ext/Blend/Val" [OStr "eyeBlinkRight"; OFloat wr];
              mkMsg "/VMC/Ext/Blend/Val" [OStr "eyeBlinkLeft"; OFloat wl];
              mkMsg "/VMC/Ext/Blend/Val" [OStr "Blink_R"; OFloat wr];
              mkMsg "/VMC/Ext/Blend/Val" [OStr "Blink_L"; OFloat wl];
              mkMsg "/VMC/Ext/Blend/Val" [OStr "Blink"; OFloat wb]] ++ post) c)
    /\ wr = 1 - py_min 1 (py_max 0 r)
    /\ wl = 1 - py_min 1 (py_max 0 l)
    /\ wb = (wr + wl) / 2
    /\ wr == 1 - r
    /\ wl == 1 - l
    /\ Forall (fun m => forall n, In n blink_names -> is_blend_of n m = false)
         (pre ++ post)
    /\ (r == 1 -> l == 1 -> wr == 0 /\ wl == 0 /\ wb == 0).
Proof.
  intros Hc Hblink Hr Hl.
  destruct (frame_shape math self now f)
    as (Lh & Le & Lf & Lg & Hframe & Fh & (Fe & _) & Ff & Fg).
  unfold blink_batch in Hframe. rewrite Hblink in Hframe. cbv zeta in Hframe.
  exists (ok_msg f :: time_msg self now :: root_msg :: Lh ++ Le),
         (Lf ++ Lg ++ [apply_msg]),
         (1 - py_min 1 (py_max 0 r)), (1 - py_min 1 (py_max 0 l)),
         ((1 - py_min 1 (py_max 0 r) + (1 - py_min 1 (py_max 0 l))) / 2).
  pose proof (clamp_unit_id r Hr) as Er. pose proof (clamp_unit_id l Hl) as El.
  split.
  { rewrite (frame_reliable math self now f c Hc), Hframe.
    cbn [app]. rewrite <- !List.app_assoc. reflexivity. }
  split; [reflexivity|]. split; [reflexivity|]. split; [reflexivity|].
  split; [rewrite Er; reflexivity|]. split; [rewrite El; reflexivity|].
  split.
  - repeat (apply Forall_app; split).
    + repeat (apply List.Forall_cons; [intros n _; reflexivity|]).
      apply Forall_app; split.
      * eapply List.Forall_impl; [|exact Fh]. cbv beta.
        intros m (n' & [[px py] pz] & [[[qx qy] qz] qw] & -> & _) n _. reflexivity.
      * eapply List.Forall_impl; [|exact Fe]. cbv beta.
        intros m (i & n' & es & eye & x & y & _ & _ & _ & _ & _ & ->) n _. reflexivity.
    + eapply List.Forall_impl; [|exact Ff]. cbv beta.
      intros m Hm n Hn. eapply is_blend_of_other; [exact Hm|].
      apply blink_names_not_feature. exact Hn.
    + eapply List.Forall_impl; [|exact Fg]. cbv beta.
      intros m Hm n Hn. eapply is_blend_of_other; [exact Hm|].
      apply blink_names_not_gaze. exact Hn.
    + repeat constructor.
  - intros Hr1 Hl1. rewrite Er, El, Hr1, Hl1.
    repeat split; vm_compute; reflexivity.
Qed.

Lemma blink_shapes_witness :
  reliable pristine /\
  exists pre post wr wl wb,
    send_tracking_data approx_math sender0 5 (Some face_open_eyes) pristine
    = (Ok tt,
       push (pre ++
             [mkMsg "/VMC/Ext/Blend/Val" [OStr "eyeBlinkRight"; OFloat wr];
              mkMsg "/VMC/Ext/Blend/Val" [OStr "eyeBlinkLeft"; OFloat wl];
              mkMsg "/VMC/Ext/Blend/Val" [OStr "Blink_R"; OFloat wr];
              mkMsg "/VMC/Ext/Blend/Val" [OStr "Blink_L"; OFloat wl];
              mkMsg "/VMC/Ext/Blend/Val" [OStr "Blink"; OFloat wb]] ++ post) pristine)
    /\ wr == 0 /\ wl == 0 /\ wb == 0.
Proof.
  split; [exact pristine_reliable|].
  destruct (blink_shapes approx_math sender0 5 face_open_eyes pristine 1 1
              pristine_reliable eq_refl
              ltac:(split; vm_compute; discriminate)
              ltac:(split; vm_compute; discriminate))
    as (pre & post & wr & wl & wb & Hrun & _ & _ & _ & _ & _ & _ & H0).
  exists pre, post, wr, wl, wb. split; [exact Hrun|].
  apply H0; reflexivity.
Defined.

(** C3, as the code has it. On a socket that accepts every datagram, a
    snapshot with [success = false] and no euler, translation, eye_state,
    eye_blink and features has a frame of four messages: [OK (0, 3, 1)],
    [T], [Root/Pos] and the closing [Blend/Apply]; no [Bone/Pos] and no
    [Blend/Val]. *)
Theorem absent_face_frame (math : MathModule) (self : VMCSender) (now : Q)
    (f : FaceInfo) (c : SimpleUDPClient) :
  reliable c ->
  success f = false ->
  euler f = None ->
  translation f = None ->
  eye_state f = None ->
  eye_blink f = None ->
  current_features f = None \/ current_features f = Some ∅ ->
  send_tracking_data math self now (Some f) c
  = (Ok tt,
     push [mkMsg "/VMC/Ext/OK" [OInt 0; OInt 3; OInt 1];
           mkMsg "/VMC/Ext/T" [OFloat (now - start_time self)];
           mkMsg "/VMC/Ext/Root/Pos"
             [OStr "root"; OFloat 0; OFloat 0; OFloat 0;
              OFloat 0; OFloat 0; OFloat 0; OFloat 1];
           mkMsg "/VMC/Ext/Blend/Apply" []] c).
Proof.
  intros Hc Hs He Ht Hes Hb Hf.
  eassert (Hp : plays (send_tracking_data math self now (Some f)) _).
  { unfold send_tracking_data, send_head_neck, send_eye_bones, send_blinks,
      send_features, send_gaze_shapes.
    rewrite Hs, Hes, Hb.
    destruct Hf as [-> | ->]; rewrite ?lookup_empty; repeat play_step. }
  cbn [app] in Hp. exact (plays_reliable _ _ c Hp Hc).
Qed.

Lemma absent_face_frame_witness :
  reliable pristine /\
  send_tracking_data approx_math sender0 5 (Some face_absent) pristine
  = (Ok tt,
     push [mkMsg "/VMC/Ext/OK" [OInt 0; OInt 3; OInt 1];
           mkMsg "/VMC/Ext/T" [OFloat (5 - 0)];
           mkMsg "/VMC/Ext/Root/Pos"
             [OStr "root"; OFloat 0; OFloat 0; OFloat 0;
              OFloat 0; OFloat 0; OFloat 0; OFloat 1];
           mkMsg "/VMC/Ext/Blend/Apply" []] pristine).
Proof.
  split; [exact pristine_reliable|].
  exact (absent_face_frame approx_math sender0 5 face_absent pristine
           pristine_reliable eq_refl eq_refl eq_refl eq_refl eq_refl
           (or_introl eq_refl)).
Defined.

(** C3, as stated, fails: the frame of that snapshot has a message whose
    address is none of [OK], [T] and [Root/Pos]. *)
Lemma absent_face_sends_apply :
  ~ (forall m,
       In m (frame approx_math sender0 5 face_absent) ->
       In (address m) ["/VMC/Ext/OK"; "/VMC/Ext/T"; "/VMC/Ext/Root/Pos"]).
Proof.
  intros H. specialize (H (mkMsg "/VMC/Ext/Blend/Apply" [])).
  assert (Hin : In (mkMsg "/VMC/Ext/Blend/Apply" [])
                  (frame approx_math sender0 5 face_absent)).
  { vm_compute. do 3 right. left. reflexivity. }
  specialize (H Hin). cbn in H.
  destruct H as [E|[E|[E|[]]]]; discriminate E.
Qed.

(** C1. At a horizontal offset of 48 pixels the frame has
    [eyeLookOutRight] with weight 32/16 = 2, above 1: the gaze blend
    shapes are rectified at 0 and not clamped at 1. *)
Theorem gaze_weight_exceeds_one (math : MathModule) (self : VMCSender) (now : Q) :
  nth_error (frame math self now face_wide_gaze) 5
  = Some (mkMsg "/VMC/Ext/Blend/Val" [OStr "eyeLookOutRight"; OFloat (32 # 16)])
  /\ ~ (32 # 16 <= 1).
Proof.
  split.
  - vm_compute. reflexivity.
  - intros H. vm_compute in H. apply H. reflexivity.
Qed.

(** C6. With [features = {"mouth_open": 1.5}] every message derived from
    [mouth_open] carries 1, and there are four of them: [jawOpen], [A],
    [Aa] and [A] once more. *)
Theorem mouth_open_sends_A_twice (math : MathModule) (self : VMCSender) (now : Q) :
  frame math self now face_mouth
  = [mkMsg "/VMC/Ext/OK" [OInt 1; OInt 3; OInt 1];
     mkMsg "/VMC/Ext/T" [OFloat (now - start_time self)];
     mkMsg "/VMC/Ext/Root/Pos"
       [OStr "root"; OFloat 0; OFloat 0; OFloat 0;
        OFloat 0; OFloat 0; OFloat 0; OFloat 1];
     mkMsg "/VMC/Ext/Blend/Val" [OStr "jawOpen"; OFloat 1];
     mkMsg "/VMC/Ext/Blend/Val" [OStr "A"; OFloat 1];
     mkMsg "/VMC/Ext/Blend/Val" [OStr "Aa"; OFloat 1];
     mkMsg "/VMC/Ext/Blend/Val" [OStr "A"; OFloat 1];
     mkMsg "/VMC/Ext/Blend/Apply" []]
  /\ length (List.filter (is_blend_of "A") (frame math self now face_mouth)) = 2%nat.
Proof.
  split; vm_compute; reflexivity.
Qed.

(** C8, as the code has it. [send_tracking_data] has no handler around
    its sends: when the socket refuses datagram [k] of the frame, having
    accepted those before it, the call raises [OSError] there; the
    datagrams before [k] went out and those after it are never sent. *)
Theorem refused_datagram_raises (math : MathModule) (self : VMCSender) (now : Q)
    (f : FaceInfo) (c : SimpleUDPClient) (k : nat) :
  (k < length (frame math self now f))%nat ->
  (forall j, (j < k)%nat -> sendto_ok c (j + calls c) = true) ->
  sendto_ok c (k + calls c) = false ->
  send_tracking_data math self now (Some f) c
  = (Raise OSError,
     mkClient (sent c ++ firstn k (frame math self now f)) (S (k + calls c))
       (sendto_ok c)).
Proof.
  intros Hk Hok Hko. rewrite (frame_plays math self now f c).
  apply play_refused; assumption.
Qed.

Lemma refused_datagram_raises_witness :
  (1 < length (frame approx_math sender0 5 face_absent))%nat /\
  sendto_ok flaky (1 + calls flaky) = false /\
  send_tracking_data approx_math sender0 5 (Some face_absent) flaky
  = (Raise OSError,
     mkClient (sent flaky ++ firstn 1 (frame approx_math sender0 5 face_absent))
       (S (1 + calls flaky)) (sendto_ok flaky)).
Proof.
  assert (H1 : (1 < length (frame approx_math sender0 5 face_absent))%nat)
    by (vm_compute; lia).
  assert (H2 : forall j, (j < 1)%nat -> sendto_ok flaky (j + calls flaky) = true)
    by (intros [|j] Hj; [reflexivity | lia]).
  split; [exact H1|]. split; [reflexivity|].
  exact (refused_datagram_raises approx_math sender0 5 face_absent flaky 1
           H1 H2 eq_refl).
Defined.

(** C8, as stated, fails: when the socket refuses the second datagram,
    the call raises [OSError] to its caller, and of the four messages of
    the frame only the first went out. *)
Lemma refused_datagram_aborts_frame :
  fst (send_tracking_data approx_math sender0 5 (Some face_absent) flaky)
  = Raise OSError
  /\ sent (snd (send_tracking_data approx_math sender0 5 (Some face_absent) flaky))
     = [mkMsg "/VMC/Ext/OK" [OInt 0; OInt 3; OInt 1]]
  /\ length (frame approx_math sender0 5 face_absent) = 4%nat.
Proof.
  repeat split; vm_compute; reflexivity.
Qed.

(** ** Each section sends its list *)

Lemma plays_eq (m : M unit) (l l' : list OSCMessage) :
  plays m l -> l = l' -> plays m l'.
Proof. intros H <-. exact H. Qed.

Ltac play_sends :=
  repeat (apply (plays_seq _ _ [_]); [apply plays_send|]); apply plays_send.

Lemma head_batch_plays (math : MathModule) (f : FaceInfo) :
  plays (send_head_neck math f) (head_batch math f).
Proof.
  unfold send_head_neck, head_batch.
  destruct (success f); [|destruct (euler f); apply plays_ret].
  destruct (euler f) as [[[pitch yaw] roll]|]; [|apply plays_ret].
  destruct (translation f) as [[[t0 t1] t2]|];
    cbv beta iota zeta delta [euler_to_quaternion bone]; play_sends.
Qed.

Lemma eye_bone_batch_plays (math : MathModule) (f : FaceInfo) :
  plays (send_eye_bones math f) (eye_bone_batch math f).
Proof.
  unfold send_eye_bones, eye_bone_batch, eye_offsets.
  destruct (eye_state f) as [es|]; [|apply plays_ret].
  destruct es as [|e0 [|e1 rest]]; try apply plays_ret.
  destruct e0 as [|a0 [|a1 [|a2 ra]]]; destruct e1 as [|b0 [|b1 [|b2 rb]]];
    cbn [length Nat.leb nth_error];
    (eapply plays_eq; [repeat play_step | reflexivity]).
Qed.

Lemma feature_batch_plays (f : FaceInfo) :
  plays (send_features f) (feature_batch f).
Proof.
  unfold send_features, feature_batch, feature_batch_of.
  destruct (current_features f) as [features|]; [|apply plays_ret].
  repeat apply plays_seq;
    match goal with
    | |- plays (match ?o with Some _ => _ | None => _ end) _ =>
        destruct o as [v|]; [|apply plays_ret]
    end;
    cbv zeta;
    try match goal with
      | |- plays (if py_gt ?a ?b then _ else _) _ => destruct (py_gt a b)
      end;
    play_sends.
Qed.

Lemma gaze_batch_plays (f : FaceInfo) :
  plays (send_gaze_shapes f) (gaze_batch f).
Proof.
  unfold send_gaze_shapes, gaze_batch, eye_offsets, gaze_right_batch, gaze_left_batch.
  destruct (eye_state f) as [es|]; [|apply plays_ret].
  destruct es as [|e0 [|e1 rest]]; try apply plays_ret.
  destruct e0 as [|a0 [|a1 [|a2 ra]]]; destruct e1 as [|b0 [|b1 [|b2 rb]]];
    cbn [length Nat.leb nth_error];
    (eapply plays_eq; [repeat play_step | reflexivity]).
Qed.

Lemma encode_frame_plays (math : MathModule) (self : VMCSender) (now : Q)
    (f : FaceInfo) :
  plays (send_tracking_data math self now (Some f)) (encode_frame math self now f).
Proof.
  unfold send_tracking_data, encode_frame.
  apply (plays_seq _ _ [_]); [apply plays_send|].
  apply (plays_seq _ _ [_]); [apply plays_send|].
  apply (plays_seq _ _ [_]); [apply plays_send|].
  apply plays_seq; [apply head_batch_plays|].
  apply plays_seq; [apply eye_bone_batch_plays|].
  apply plays_seq; [apply blinks_plays|].
  apply plays_seq; [apply feature_batch_plays|].
  apply plays_seq; [apply gaze_batch_plays|].
  apply plays_send.
Qed.

Lemma frame_encode (math : MathModule) (self : VMCSender) (now : Q) (f : FaceInfo) :
  frame math self now f = encode_frame math self now f.
Proof.
  eapply plays_unique; [apply frame_plays | apply encode_frame_plays].
Qed.

(** ** What [play] does on any client *)

Lemma play_outcome (l : list OSCMessage) (c : SimpleUDPClient) :
  exists k,
    sent (snd (play l c)) = sent c ++ firstn k l
    /\ sendto_ok (snd (play l c)) = sendto_ok c
    /\ ((fst (play l c) = Ok tt /\ k = length l
         /\ calls (snd (play l c)) = (length l + calls c)%nat)
        \/ (fst (play l c) = Raise OSError /\ (k < length l)%nat
            /\ sendto_ok c (k + calls c) = false
            /\ calls (snd (play l c)) = S (k + calls c))).
Proof.
  revert c. induction l as [|[a xs] l IH]; intros c.
  - exists 0%nat. cbn. rewrite app_nil_r. split; [reflexivity|].
    split; [reflexivity|]. left. repeat split; reflexivity.
  - cbn [play address args]. unfold bind, send_message.
    destruct (sendto_ok c (calls c)) eqn:E.
    + destruct (IH (mkClient (sent c ++ [mkMsg a xs]) (S (calls c)) (sendto_ok c)))
        as (k & Hs & Hf & Hr).
      cbn [sent calls sendto_ok] in Hs, Hf, Hr.
      exists (S k). rewrite Hs, Hf. cbn [firstn length].
      split; [rewrite <- List.app_assoc; reflexivity|]. split; [reflexivity|].
      destruct Hr as [(Hok & Hk & Hc)|(Hko & Hk & Hno & Hc)].
      * left. rewrite Hok, Hc. split; [reflexivity|]. split; [congruence | lia].
      * right. rewrite Hko, Hc.
        replace (S k + calls c)%nat with (k + S (calls c))%nat by lia.
        split; [reflexivity|]. split; [lia|]. split; [exact Hno | lia].
    + exists 0%nat. cbn. rewrite app_nil_r. split; [reflexivity|].
      split; [reflexivity|]. right.
      split; [reflexivity|]. split; [lia|]. split; [exact E | reflexivity].
Qed.

Lemma emits_plays (P : OSCMessage -> Prop) (m : M unit) (l : list OSCMessage) :
  emits P m -> plays m l -> Forall P l.
Proof.
  intros (l' & Hl' & Fl') Hl. rewrite (plays_unique m l l' Hl Hl'). exact Fl'.
Qed.

Lemma head_batch_shape (math : MathModule) (f : FaceInfo) :
  Forall (bone_in ["Head"; "Neck"]) (head_batch math f).
Proof. eapply emits_plays; [apply head_neck_emits | apply head_batch_plays]. Qed.

Lemma eye_bone_batch_shape (math : MathModule) (f : FaceInfo) :
  Forall (eye_bone_msg math f) (eye_bone_batch math f).
Proof.
  destruct (eye_bones_plays math f) as (L & HL & FL & _).
  rewrite (plays_unique _ _ L (eye_bone_batch_plays math f) HL). exact FL.
Qed.

Lemma feature_batch_shape (f : FaceInfo) :
  Forall (blend_in feature_names unit_range) (feature_batch f).
Proof. eapply emits_plays; [apply features_emits | apply feature_batch_plays]. Qed.

Lemma gaze_batch_shape (f : FaceInfo) :
  Forall (blend_in gaze_names nonneg) (gaze_batch f).
Proof. eapply emits_plays; [apply gaze_shapes_emits | apply gaze_batch_plays]. Qed.

(** ** Further properties of the sender *)


(** X2. The frames of one snapshot at two clock readings are the same
    but for the argument of [/VMC/Ext/T], the second message, which is
    the reading minus [start_time]; [ip] and [port] play no part. *)
Theorem frames_differ_only_in_time (math : MathModule) (self self' : VMCSender)
    (now now' : Q) (f : FaceInfo) :
  exists rest,
    frame math self now f
    = ok_msg f :: mkMsg "/VMC/Ext/T" [OFloat (now - start_time self)] :: rest
    /\ frame math self' now' f
       = ok_msg f :: mkMsg "/VMC/Ext/T" [OFloat (now' - start_time self')] :: rest.
Proof.
  rewrite !frame_encode. unfold encode_frame. eexists. split; reflexivity.
Qed.

Lemma existsb_bone_blend (n : string) (names : list string) (R : Q -> Prop)
    (l : list OSCMessage) :
  Forall (blend_in names R) l -> existsb (is_bone_of n) l = false.
Proof.
  intros Hl. apply (existsb_none _ _ l Hl). intros x. apply is_bone_of_blend.
Qed.

Lemma existsb_head_eye_bones (math : MathModule) (f : FaceInfo) (n : string) :
  In n ["Head"; "Neck"] -> existsb (is_bone_of n) (eye_bone_batch math f) = false.
Proof.
  intros Hn. apply (existsb_none _ _ _ (eye_bone_batch_shape math f)).
  intros x (i & n' & es & eye & a & b & Hin & _ & _ & _ & _ & ->).
  destruct Hn as [<-|[<-|[]]]; destruct Hin as [E|[E|[]]];
    injection E as _ <-; reflexivity.
Qed.

(** X3. The [Head] bone is in the frame exactly when [success] holds and
    [euler] is present, and so is the [Neck] bone: neither is ever sent
    without the other. *)
Theorem head_neck_together (math : MathModule) (self : VMCSender) (now : Q)
    (f : FaceInfo) :
  existsb (is_bone_of "Head") (frame math self now f) = pose_known f
  /\ existsb (is_bone_of "Neck") (frame math self now f) = pose_known f.
Proof.
  rewrite frame_encode. unfold encode_frame.
  pose proof (blink_batch_range f) as Fb.
  pose proof (feature_batch_shape f) as Ff.
  pose proof (gaze_batch_shape f) as Fg.
  cbn [existsb]. rewrite !existsb_app.
  rewrite !(existsb_bone_blend _ _ _ _ Fb), !(existsb_bone_blend _ _ _ _ Ff),
    !(existsb_bone_blend _ _ _ _ Fg).
  rewrite !existsb_head_eye_bones by in_list.
  unfold head_batch, pose_known.
  destruct (success f); [|split; reflexivity].
  destruct (euler f) as [[[pitch yaw] roll]|]; [|split; reflexivity].
  destruct (translation f) as [[[t0 t1] t2]|]; split; reflexivity.
Qed.

(** X4. With [success] and [euler = (pitch, yaw, roll)], the [Head] and
    [Neck] bones are the fourth and fifth message of the frame: the head
    at the translation in metres with its second coordinate negated (at
    the origin without a translation) and turned by
    [(-pitch, -yaw, roll)]; the neck at half that position, turned by
    three tenths of those angles. *)
Theorem head_neck_pose (math : MathModule) (self : VMCSender) (now : Q)
    (f : FaceInfo) (pitch yaw roll : Q) :
  success f = true ->
  euler f = Some (pitch, yaw, roll) ->
  nth_error (frame math self now f) 3
  = Some (bone "Head" (head_position f)
            (euler_to_quaternion math (- pitch) (- yaw) roll))
  /\ nth_error (frame math self now f) 4
     = Some (let '(tx, ty, tz) := head_position f in
             bone "Neck" (tx * (1#2), ty * (1#2), tz * (1#2))
               (euler_to_quaternion math
                  (- pitch * (3#10)) (- yaw * (3#10)) (roll * (3#10)))).
Proof.
  intros Hs He. rewrite frame_encode. unfold encode_frame, head_batch, head_position.
  rewrite Hs, He.
  destruct (translation f) as [[[t0 t1] t2]|]; split; reflexivity.
Qed.

Lemma head_neck_pose_witness :
  nth_error (frame approx_math sender0 5 face_posed) 3
  = Some (bone "Head" (100 / 1000, - 50 / 1000, 600 / 1000)
            (euler_to_quaternion approx_math (- 10) (- -20) 5)).
Proof.
  exact (proj1 (head_neck_pose approx_math sender0 5 face_posed 10 (-20) 5
                  eq_refl eq_refl)).
Defined.

Lemma feature_batch_of_length (features : gmap string Q) :
  (length (feature_batch_of features) <= 10)%nat.
Proof.
  unfold feature_batch_of. rewrite !length_app.
  repeat match goal with
    | |- context [length (match ?o with Some _ => _ | None => _ end)] =>
        destruct o; cbv zeta
    | |- context [length (if py_gt ?a ?b then _ else _)] => destruct (py_gt a b)
    end;
    cbn [length]; lia.
Qed.

(** X5. A frame has four datagrams at least and thirty-nine at most. *)
Theorem frame_length_bounds (math : MathModule) (self : VMCSender) (now : Q)
    (f : FaceInfo) :
  (4 <= length (frame math self now f) <= 39)%nat.
Proof.
  rewrite frame_encode. unfold encode_frame. cbn [length]. rewrite !length_app.
  assert (Hh : (length (head_batch math f) <= 2)%nat).
  { unfold head_batch. destruct (success f); [|cbn; lia].
    destruct (euler f) as [[[pitch yaw] roll]|]; [|cbn; lia].
    destruct (translation f) as [[[t0 t1] t2]|]; cbn; lia. }
  assert (He : (length (eye_bone_batch math f) <= 2)%nat).
  { unfold eye_bone_batch. rewrite length_app.
    destruct (eye_offsets 0 f) as [[x y]|]; destruct (eye_offsets 1 f) as [[x' y']|];
      cbn; lia. }
  assert (Hb : (length (blink_batch f) <= 5)%nat).
  { unfold blink_batch. destruct (eye_blink f) as [[b0 b1]|]; cbn; lia. }
  assert (Hf : (length (feature_batch f) <= 10)%nat).
  { unfold feature_batch. destruct (current_features f);
      [apply feature_batch_of_length | cbn; lia]. }
  assert (Hg : (length (gaze_batch f) <= 16)%nat).
  { unfold gaze_batch. rewrite length_app.
    destruct (eye_offsets 0 f) as [[x y]|]; destruct (eye_offsets 1 f) as [[x' y']|];
      cbn; lia. }
  cbn [length]. lia.
Qed.

(** X6. Every [/VMC/Ext/Blend/Val] of a frame whose name is not one of
    the sixteen gaze names carries a weight within [0, 1], whatever the
    snapshot holds. *)
Theorem blend_weights_unit_outside_gaze (math : MathModule) (self : VMCSender)
    (now : Q) (f : FaceInfo) (m : OSCMessage) :
  In m (frame math self now f) ->
  address m = "/VMC/Ext/Blend/Val" ->
  exists n w,
    m = mkMsg "/VMC/Ext/Blend/Val" [OStr n; OFloat w]
    /\ 0 <= w
    /\ (In n gaze_names \/ w <= 1).
Proof.
  intros Hin Hval. apply frame_In in Hin.
  destruct Hin as [->|[Hb| ->]]; [discriminate Hval| |discriminate Hval].
  destruct Hb as [->|[->|[H|[H|[H|[H|H]]]]]];
    try discriminate Hval.
  - destruct H as (n & [[px py] pz] & [[[qx qy] qz] qw] & -> & _).
    discriminate Hval.
  - destruct H as (i & n & es & eye & x & y & _ & _ & _ & _ & _ & ->).
    discriminate Hval.
  - destruct H as (n & w & -> & _ & Hw). exists n, w. unfold unit_range in Hw.
    split; [reflexivity | tauto].
  - destruct H as (n & w & -> & _ & Hw). exists n, w. unfold unit_range in Hw.
    split; [reflexivity | tauto].
  - destruct H as (n & w & -> & Hn & Hw). exists n, w. unfold nonneg in Hw.
    split; [reflexivity | tauto].
Qed.

Lemma blend_weights_unit_outside_gaze_witness :
  exists n w,
    mkMsg "/VMC/Ext/Blend/Val" [OStr "Blink"; OFloat ((1 - 1 + (1 - 1)) / 2)]
    = mkMsg "/VMC/Ext/Blend/Val" [OStr n; OFloat w]
    /\ 0 <= w
    /\ (In n gaze_names \/ w <= 1).
Proof.
  apply (blend_weights_unit_outside_gaze approx_math sender0 5 face_open_eyes).
  - vm_compute. do 7 right. left. reflexivity.
  - reflexivity.
Defined.

Lemma eye_offsets_spec (i : nat) (f : FaceInfo) (x y : Q) :
  eye_offsets i f = Some (x, y) ->
  exists es e,
    eye_state f = Some es /\ nth_error es i = Some e
    /\ nth_error e 2 = Some x /\ nth_error e 1 = Some y.
Proof.
  unfold eye_offsets. destruct (eye_state f) as [es|]; [|discriminate].
  destruct (2 <=? length es)%nat; [|discriminate].
  destruct (nth_error es i) as [e|] eqn:He; [|discriminate].
  destruct (3 <=? length e)%nat; [|discriminate].
  destruct (nth_error e 2) as [a|] eqn:Ha; [|discriminate].
  destruct (nth_error e 1) as [b|] eqn:Hb; [|discriminate].
  intros E. injection E as <- <-. exists es, e. tauto.
Qed.

Lemma normalised_in_window (o : Q) : 0 <= o <= 32 -> -1 <= (o - 16) / 16 <= 1.
Proof.
  intros Ho. split.
  - apply Qle_shift_div_l; lra.
  - apply Qle_shift_div_r; lra.
Qed.

Lemma rectify_unit (g : Q) : -1 <= g <= 1 -> 0 <= py_max 0 g <= 1 /\ 0 <= py_max 0 (- g) <= 1.
Proof. intros Hg. py_cases; lra. Qed.

Lemma gaze_side_unit (x y : Q) :
  0 <= x <= 32 -> 0 <= y <= 32 ->
  Forall (blend_in gaze_names unit_range) (gaze_right_batch x y)
  /\ Forall (blend_in gaze_names unit_range) (gaze_left_batch x y).
Proof.
  intros Hx Hy.
  destruct (rectify_unit _ (normalised_in_window x Hx)) as [Hx1 Hx2].
  destruct (rectify_unit _ (normalised_in_window y Hy)) as [Hy1 Hy2].
  unfold gaze_right_batch, gaze_left_batch. cbv zeta.
  split;
    repeat (apply List.Forall_cons || apply List.Forall_nil);
    (eexists _, _; split; [reflexivity|]; split;
     [in_list | match goal with H : ?G |- unit_range _ => exact H end]).
Qed.

Lemma encode_frame_In (math : MathModule) (self : VMCSender) (now : Q)
    (f : FaceInfo) (m : OSCMessage) :
  In m (frame math self now f) <->
  m = ok_msg f \/ m = time_msg self now \/ m = root_msg
  \/ In m (head_batch math f) \/ In m (eye_bone_batch math f)
  \/ In m (blink_batch f) \/ In m (feature_batch f) \/ In m (gaze_batch f)
  \/ m = apply_msg.
Proof.
  rewrite frame_encode. unfold encode_frame. cbn [In].
  rewrite !in_app_iff. cbn [In]. intuition congruence.
Qed.

(** X7. When the offsets (items 1 and 2) of the first two entries of
    [eye_state] lie within the window [0, 32], every
    [/VMC/Ext/Blend/Val] of the frame, the gaze shapes included, carries a
    weight within [0, 1]. *)
Theorem blend_weights_unit_in_window (math : MathModule) (self : VMCSender)
    (now : Q) (f : FaceInfo) :
  (forall es i e o,
     eye_state f = Some es -> (i < 2)%nat -> nth_error es i = Some e ->
     nth_error e 1 = Some o \/ nth_error e 2 = Some o ->
     0 <= o <= 32) ->
  forall m,
    In m (frame math self now f) ->
    address m = "/VMC/Ext/Blend/Val" ->
    exists n w, m = mkMsg "/VMC/Ext/Blend/Val" [OStr n; OFloat w] /\ 0 <= w <= 1.
Proof.
  intros Hwin.
  assert (Hg : Forall (blend_in gaze_names unit_range) (gaze_batch f)).
  { unfold gaze_batch. apply Forall_app. split.
    - destruct (eye_offsets 0 f) as [[x y]|] eqn:E; [|constructor].
      destruct (eye_offsets_spec _ _ _ _ E) as (es & e & H1 & H2 & H3 & H4).
      apply gaze_side_unit; eapply (Hwin es 0%nat e); eauto.
    - destruct (eye_offsets 1 f) as [[x y]|] eqn:E; [|constructor].
      destruct (eye_offsets_spec _ _ _ _ E) as (es & e & H1 & H2 & H3 & H4).
      apply gaze_side_unit; eapply (Hwin es 1%nat e); eauto. }
  intros m Hin Hval. apply encode_frame_In in Hin.
  pose proof (head_batch_shape math f) as Fh.
  pose proof (eye_bone_batch_shape math f) as Fe.
  pose proof (blink_batch_range f) as Fb.
  pose proof (feature_batch_shape f) as Ff.
  rewrite List.Forall_forall in Fh, Fe, Fb, Ff, Hg.
  destruct Hin as [->|[->|[->|[Hin|[Hin|[Hin|[Hin|[Hin| ->]]]]]]]];
    try discriminate Hval.
  - destruct (Fh m Hin) as (n & [[px py] pz] & [[[qx qy] qz] qw] & -> & _).
    discriminate Hval.
  - destruct (Fe m Hin) as (i & n & es & eye & x & y & _ & _ & _ & _ & _ & ->).
    discriminate Hval.
  - destruct (Fb m Hin) as (n & w & -> & _ & Hw). exists n, w. split; [reflexivity | exact Hw].
  - destruct (Ff m Hin) as (n & w & -> & _ & Hw). exists n, w. split; [reflexivity | exact Hw].
  - destruct (Hg m Hin) as (n & w & -> & _ & Hw). exists n, w. split; [reflexivity | exact Hw].
Qed.

Lemma blend_weights_unit_in_window_witness :
  exists n w,
    blend "eyeLookInRight" (8 # 16)
    = mkMsg "/VMC/Ext/Blend/Val" [OStr n; OFloat w] /\ 0 <= w <= 1.
Proof.
  apply (blend_weights_unit_in_window approx_math sender0 5 face_posed).
  - intros es i e o Hes Hi He Ho. injection Hes as <-.
    destruct i as [|[|i]]; [| |lia];
      cbn in He; injection He as <-; cbn in Ho;
      destruct Ho as [Ho|Ho]; injection Ho as <-; split; vm_compute; discriminate.
  - vm_compute. repeat first [left; reflexivity | right].
  - reflexivity.
Defined.

Lemma gaze_names_not_blink (n : string) : In n gaze_names -> ~ In n blink_names.
Proof. intros Hg Hb. exact (blink_names_not_gaze n Hb Hg). Qed.

Lemma gaze_names_not_feature (n : string) : In n gaze_names -> ~ In n feature_names.
Proof.
  unfold gaze_names, feature_names. cbn [In].
  intros Hb Hf.
  repeat match goal with H : _ \/ _ |- _ => destruct H as [H|H] end;
    try contradiction; subst n; discriminate.
Qed.

Lemma blend_in_names (names : list string) (R : Q -> Prop) (n : string) (w : Q) :
  blend_in names R (blend n w) -> In n names.
Proof. intros (n' & w' & E & Hn & _). injection E as -> _. exact Hn. Qed.

(** A gaze name occurs in the gaze section only. *)
Lemma gaze_in_frame (math : MathModule) (self : VMCSender) (now : Q)
    (f : FaceInfo) (n : string) (w : Q) :
  In n gaze_names ->
  In (blend n w) (frame math self now f) <-> In (blend n w) (gaze_batch f).
Proof.
  intros Hn. rewrite encode_frame_In.
  pose proof (head_batch_shape math f) as Fh.
  pose proof (eye_bone_batch_shape math f) as Fe.
  pose proof (blink_batch_range f) as Fb.
  pose proof (feature_batch_shape f) as Ff.
  rewrite List.Forall_forall in Fh, Fe, Fb, Ff.
  split; [|tauto].
  intros [E|[E|[E|[H|[H|[H|[H|[H|E]]]]]]]]; try discriminate E; try exact H.
  - destruct (Fh _ H) as (n' & [[px py] pz] & [[[qx qy] qz] qw] & E & _).
    discriminate E.
  - destruct (Fe _ H) as (i & n' & es & eye & x & y & _ & _ & _ & _ & _ & E).
    discriminate E.
  - apply Fb, blend_in_names in H. exfalso. exact (gaze_names_not_blink n Hn H).
  - apply Ff, blend_in_names in H. exfalso. exact (gaze_names_not_feature n Hn H).
Qed.

Lemma rectify_exclusive (g : Q) : py_max 0 g == 0 \/ py_max 0 (- g) == 0.
Proof.
  unfold py_max. destruct (py_gt g 0) eqn:E.
  - right. apply py_gt_true in E. destruct (py_gt (- g) 0) eqn:E'.
    + apply py_gt_true in E'. lra.
    + reflexivity.
  - left. reflexivity.
Qed.

Ltac in_batch H :=
  cbn [In] in H;
  repeat match type of H with
    | _ \/ _ => destruct H as [H|H]
    | False => destruct H
    end;
  try discriminate H.

(** X8. Of two gaze shapes that look in opposite directions (out and in,
    or up and down, of one eye) at most one has a weight other than 0 in
    a frame. *)
Theorem gaze_opposites_exclusive (math : MathModule) (self : VMCSender) (now : Q)
    (f : FaceInfo) (a b : string) (wa wb : Q) :
  In (a, b) gaze_opposites ->
  In (blend a wa) (frame math self now f) ->
  In (blend b wb) (frame math self now f) ->
  wa == 0 \/ wb == 0.
Proof.
  intros Hab Ha Hb.
  assert (Hna : In a gaze_names /\ In b gaze_names).
  { unfold gaze_opposites in Hab. cbn [In] in Hab.
    repeat destruct Hab as [Hab|Hab]; try contradiction;
      injection Hab as <- <-; split; in_list. }
  apply (gaze_in_frame math self now f a wa) in Ha; [|tauto].
  apply (gaze_in_frame math self now f b wb) in Hb; [|tauto].
  clear Hna. unfold gaze_batch in Ha, Hb.
  rewrite in_app_iff in Ha, Hb.
  unfold gaze_opposites in Hab. cbn [In] in Hab.
  destruct (eye_offsets 0 f) as [[x y]|]; destruct (eye_offsets 1 f) as [[x' y']|];
    unfold gaze_right_batch, gaze_left_batch in Ha, Hb; cbv zeta in Ha, Hb;
    repeat destruct Hab as [Hab|Hab]; try contradiction;
    injection Hab as <- <-;
    destruct Ha as [Ha|Ha]; in_batch Ha;
    destruct Hb as [Hb|Hb]; in_batch Hb;
    injection Ha as <-; injection Hb as <-;
    first [ apply rectify_exclusive
          | apply or_comm; apply rectify_exclusive ].
Qed.

Ltac in_frame := vm_compute; repeat first [left; reflexivity | right].

Lemma gaze_opposites_exclusive_witness : 0 == 0 \/ 8 # 16 == 0.
Proof.
  apply (gaze_opposites_exclusive approx_math sender0 5 face_posed
           "eyeLookOutRight" "eyeLookInRight" 0 (8 # 16)).
  - in_list.
  - in_frame.
  - in_frame.
Defined.

(** X9. A gaze shape goes out under its ARKit name and under its
    alternative name with one and the same weight. *)
Theorem gaze_names_doubled (math : MathModule) (self : VMCSender) (now : Q)
    (f : FaceInfo) (lower upper : string) (w : Q) :
  In (lower, upper) gaze_name_pairs ->
  In (blend lower w) (frame math self now f)
  <-> In (blend upper w) (frame math self now f).
Proof.
  intros Hp.
  assert (Hn : In lower gaze_names /\ In upper gaze_names).
  { unfold gaze_name_pairs in Hp. cbn [In] in Hp.
    repeat destruct Hp as [Hp|Hp]; try contradiction;
      injection Hp as <- <-; split; in_list. }
  rewrite (gaze_in_frame math self now f lower w) by tauto.
  rewrite (gaze_in_frame math self now f upper w) by tauto.
  clear Hn. unfold gaze_batch. rewrite !in_app_iff.
  unfold gaze_name_pairs in Hp. cbn [In] in Hp.
  destruct (eye_offsets 0 f) as [[x y]|]; destruct (eye_offsets 1 f) as [[x' y']|];
    unfold gaze_right_batch, gaze_left_batch; cbv zeta;
    repeat destruct Hp as [Hp|Hp]; try contradiction;
    injection Hp as <- <-;
    (split; intros [H|H]; in_batch H; injection H as <-;
     first [solve [left; in_list] | solve [right; in_list]]).
Qed.

Lemma gaze_names_doubled_witness :
  In (blend "eyeLookInRight" (8 # 16)) (frame approx_math sender0 5 face_posed)
  <-> In (blend "EyeLookInRight" (8 # 16)) (frame approx_math sender0 5 face_posed).
Proof.
  apply (gaze_names_doubled approx_math sender0 5 face_posed); in_list.
Defined.

Lemma feature_batch_of_agree (features features' : gmap string Q) :
  (forall k, In k feature_keys -> features !! k = features' !! k) ->
  feature_batch_of features = feature_batch_of features'.
Proof.
  intros H. unfold feature_batch_of.
  rewrite (H "mouth_open"), (H "mouth_wide"), (H "mouth_corner_updown_l"),
    (H "mouth_corner_updown_r"), (H "eyebrow_updown_l"), (H "eyebrow_updown_r")
    by in_list.
  reflexivity.
Qed.

(** X10. A frame depends on the features only through the six keys
    [send_tracking_data] reads: two dicts that agree on these keys give
    the same frame, so a key outside them is ignored. *)
Theorem unknown_feature_keys_ignored (math : MathModule) (self : VMCSender)
    (now : Q) (f : FaceInfo) (features features' : gmap string Q) :
  (forall k, In k feature_keys -> features !! k = features' !! k) ->
  frame math self now (with_features f (Some features))
  = frame math self now (with_features f (Some features')).
Proof.
  intros H. rewrite !frame_encode.
  unfold encode_frame, feature_batch, with_features. cbn [current_features].
  rewrite (feature_batch_of_agree features features' H). reflexivity.
Qed.

Lemma unknown_feature_keys_ignored_witness :
  frame approx_math sender0 5
    (with_features face_posed (Some (<[ "tongue_out" := 1 ]> {[ "mouth_wide" := 1 # 2 ]})))
  = frame approx_math sender0 5
      (with_features face_posed (Some {[ "mouth_wide" := 1 # 2 ]})).
Proof.
  apply (unknown_feature_keys_ignored approx_math sender0 5 face_posed).
  intros k Hk. apply lookup_insert_ne. intros <-.
  cbn in Hk. repeat destruct Hk as [Hk|Hk]; try discriminate Hk. exact Hk.
Defined.

(** X11. Features with none of the six keys, the empty dict among them,
    give the frame of a snapshot without features. *)
Theorem featureless_dict_like_none (math : MathModule) (self : VMCSender)
    (now : Q) (f : FaceInfo) (features : gmap string Q) :
  (forall k, In k feature_keys -> features !! k = None) ->
  frame math self now (with_features f (Some features))
  = frame math self now (with_features f None).
Proof.
  intros H. rewrite !frame_encode.
  unfold encode_frame, feature_batch, with_features. cbn [current_features].
  unfold feature_batch_of.
  rewrite (H "mouth_open"), (H "mouth_wide"), (H "mouth_corner_updown_l"),
    (H "mouth_corner_updown_r"), (H "eyebrow_updown_l"), (H "eyebrow_updown_r")
    by in_list.
  reflexivity.
Qed.

Lemma featureless_dict_like_none_witness :
  frame approx_math sender0 5 (with_features face_posed (Some ∅))
  = frame approx_math sender0 5 (with_features face_posed None).
Proof.
  apply (featureless_dict_like_none approx_math sender0 5 face_posed).
  intros k _. apply lookup_empty.
Defined.

Lemma filter_none {A} (g : A -> bool) (P : A -> Prop) (l : list A) :
  Forall P l -> (forall x, P x -> g x = false) -> List.filter g l = [].
Proof.
  intros Hl Hg. induction Hl as [|x l Hx _ IH]; [reflexivity|].
  cbn [List.filter]. rewrite (Hg x Hx). exact IH.
Qed.

Lemma is_left_corner_bone (names : list string) (m : OSCMessage) :
  bone_in names m -> is_left_corner m = false.
Proof.
  intros (n & [[px py] pz] & [[[qx qy] qz] qw] & -> & _). reflexivity.
Qed.

Lemma is_left_corner_eye (math : MathModule) (f : FaceInfo) (m : OSCMessage) :
  eye_bone_msg math f m -> is_left_corner m = false.
Proof.
  intros (i & n & es & eye & x & y & _ & _ & _ & _ & _ & ->). reflexivity.
Qed.

Lemma is_left_corner_other (names : list string) (R : Q -> Prop) (m : OSCMessage) :
  ~ In "mouthSmileLeft" names -> ~ In "mouthFrownLeft" names ->
  blend_in names R m -> is_left_corner m = false.
Proof.
  intros Hs Hf Hm. unfold is_left_corner.
  rewrite (is_blend_of_other names R "mouthSmileLeft" m Hm Hs).
  rewrite (is_blend_of_other names R "mouthFrownLeft" m Hm Hf).
  reflexivity.
Qed.

Ltac not_in_names :=
  cbn [In blink_names gaze_names]; intros H;
  repeat destruct H as [H|H]; try discriminate H; exact H.

(** X12. When the features hold [mouth_corner_updown_l], the last
    message of the frame that sets the left corner of the mouth
    ([mouthSmileLeft] or [mouthFrownLeft]) is the one derived from it,
    after whatever [mouth_wide] sent for that corner. *)
Theorem corner_overrides_wide (math : MathModule) (self : VMCSender) (now : Q)
    (f : FaceInfo) (features : gmap string Q) (v : Q) :
  current_features f = Some features ->
  features !! "mouth_corner_updown_l" = Some v ->
  List.last (List.filter is_left_corner (frame math self now f)) apply_msg
  = if py_gt v 0 then blend "mouthSmileLeft" (py_min 1 v)
    else blend "mouthFrownLeft" (py_min 1 (- v)).
Proof.
  intros Hf Hv. rewrite frame_encode. unfold encode_frame.
  change (ok_msg f :: time_msg self now :: root_msg :: ?l)
    with ([ok_msg f; time_msg self now; root_msg] ++ l).
  rewrite !List.filter_app.
  rewrite (filter_none _ _ _ (head_batch_shape math f))
    by (apply is_left_corner_bone).
  rewrite (filter_none _ _ _ (eye_bone_batch_shape math f))
    by (apply is_left_corner_eye).
  rewrite (filter_none _ _ _ (blink_batch_range f))
    by (intros x Hx; refine (is_left_corner_other _ _ x _ _ Hx); not_in_names).
  rewrite (filter_none _ _ _ (gaze_batch_shape f))
    by (intros x Hx; refine (is_left_corner_other _ _ x _ _ Hx); not_in_names).
  unfold feature_batch. rewrite Hf. unfold feature_batch_of. rewrite Hv.
  destruct (features !! "mouth_open") as [v0|];
    destruct (features !! "mouth_wide") as [v1|];
    destruct (features !! "mouth_corner_updown_r") as [v3|];
    destruct (features !! "eyebrow_updown_l") as [v4|];
    destruct (features !! "eyebrow_updown_r") as [v5|];
    cbv zeta;
    repeat match goal with
      | |- context [if py_gt ?a ?b then _ else _] => destruct (py_gt a b)
      end;
    reflexivity.
Qed.

Lemma corner_overrides_wide_witness :
  List.last (List.filter is_left_corner (frame approx_math sender0 5 face_corner))
    apply_msg
  = if py_gt (- (1 # 4)) 0 then blend "mouthSmileLeft" (py_min 1 (- (1 # 4)))
    else blend "mouthFrownLeft" (py_min 1 (- - (1 # 4))).
Proof.
  apply (corner_overrides_wide approx_math sender0 5 face_corner
           (<[ "mouth_corner_updown_l" := - (1 # 4) ]> {[ "mouth_wide" := 1 # 2 ]})).
  - reflexivity.
  - vm_compute. reflexivity.
Defined.

(** ** The loop over the faces of a video frame *)

Lemma send_faces_plays (math : MathModule) (vmc_sender : VMCSender)
    (clock : nat -> Q) (k : nat) (faces : list FaceInfo) :
  plays (send_faces math vmc_sender clock k faces)
    (faces_frames math vmc_sender clock k faces).
Proof.
  revert k. induction faces as [|f rest IH]; intros k; [apply plays_ret|].
  cbn [send_faces faces_frames]. apply plays_seq; [apply frame_plays | apply IH].
Qed.

(** X13. The loop of [facetracker_vmc.py] over the faces of a video frame
    sends the frames of the faces one after the other, in the order of the
    faces.  Whatever the socket does, the datagrams that went out are the
    first [n] of that sequence; the loop ends normally exactly when all of
    them went out, and when the socket refuses datagram [n] the [OSError]
    ends the loop there: the rest of that face's frame and the frames of
    the faces after it are not sent. *)
Theorem send_faces_outcome (math : MathModule) (vmc_sender : VMCSender)
    (clock : nat -> Q) (faces : list FaceInfo) (c : SimpleUDPClient) :
  exists n,
    sent (snd (send_faces math vmc_sender clock 0 faces c))
    = sent c ++ firstn n (faces_frames math vmc_sender clock 0 faces)
    /\ ((fst (send_faces math vmc_sender clock 0 faces c) = Ok tt
         /\ n = length (faces_frames math vmc_sender clock 0 faces))
        \/ (fst (send_faces math vmc_sender clock 0 faces c) = Raise OSError
            /\ (n < length (faces_frames math vmc_sender clock 0 faces))%nat
            /\ sendto_ok c (n + calls c) = false)).
Proof.
  rewrite (send_faces_plays math vmc_sender clock 0 faces c).
  destruct (play_outcome (faces_frames math vmc_sender clock 0 faces) c)
    as (n & Hs & _ & Hr).
  exists n. split; [exact Hs|]. tauto.
Qed.

Lemma frame_one_ok_one_apply (math : MathModule) (self : VMCSender) (now : Q)
    (f : FaceInfo) :
  List.filter (has_address "/VMC/Ext/OK") (frame math self now f) = [ok_msg f]
  /\ List.filter (has_address "/VMC/Ext/Blend/Apply") (frame math self now f)
     = [apply_msg].
Proof.
  destruct (frame_body math self now f) as (body & -> & Hb).
  assert (Hok : List.filter (has_address "/VMC/Ext/OK") body = []).
  { apply (filter_none _ _ _ Hb). intros m Hm.
    apply body_msg_address in Hm. unfold has_address.
    destruct Hm as [E|[E|[E|E]]]; rewrite E; reflexivity. }
  assert (Hap : List.filter (has_address "/VMC/Ext/Blend/Apply") body = []).
  { apply (filter_none _ _ _ Hb). intros m Hm.
    apply body_msg_address in Hm. unfold has_address.
    destruct Hm as [E|[E|[E|E]]]; rewrite E; reflexivity. }
  split.
  - change (ok_msg f :: body ++ [apply_msg]) with ([ok_msg f] ++ body ++ [apply_msg]).
    rewrite !List.filter_app, Hok. reflexivity.
  - change (ok_msg f :: body ++ [apply_msg]) with ([ok_msg f] ++ body ++ [apply_msg]).
    rewrite !List.filter_app, Hap. reflexivity.
Qed.

(** X14. What the loop sends for a list of faces holds one
    [/VMC/Ext/OK] and one [/VMC/Ext/Blend/Apply] for each face, no more
    and no less. *)
Theorem send_faces_one_ok_per_face (math : MathModule) (vmc_sender : VMCSender)
    (clock : nat -> Q) (k : nat) (faces : list FaceInfo) :
  length (List.filter (has_address "/VMC/Ext/OK")
            (faces_frames math vmc_sender clock k faces)) = length faces
  /\ length (List.filter (has_address "/VMC/Ext/Blend/Apply")
               (faces_frames math vmc_sender clock k faces)) = length faces.
Proof.
  revert k. induction faces as [|f rest IH]; intros k; [split; reflexivity|].
  cbn [faces_frames]. rewrite !List.filter_app, !length_app.
  destruct (frame_one_ok_one_apply math vmc_sender (clock k) (with_default_blink f))
    as [-> ->].
  destruct (IH (S k)) as [-> ->]. split; reflexivity.
Qed.

(** A blink name occurs in the blink section only. *)
Lemma blink_in_frame (math : MathModule) (self : VMCSender) (now : Q)
    (f : FaceInfo) (n : string) (w : Q) :
  In n blink_names ->
  In (blend n w) (frame math self now f) <-> In (blend n w) (blink_batch f).
Proof.
  intros Hn. rewrite encode_frame_In.
  pose proof (head_batch_shape math f) as Fh.
  pose proof (eye_bone_batch_shape math f) as Fe.
  pose proof (feature_batch_shape f) as Ff.
  pose proof (gaze_batch_shape f) as Fg.
  rewrite List.Forall_forall in Fh, Fe, Ff, Fg.
  split; [|tauto].
  intros [E|[E|[E|[H|[H|[H|[H|[H|E]]]]]]]]; try discriminate E; try exact H.
  - destruct (Fh _ H) as (n' & [[px py] pz] & [[[qx qy] qz] qw] & E & _).
    discriminate E.
  - destruct (Fe _ H) as (i & n' & es & eye & x & y & _ & _ & _ & _ & _ & E).
    discriminate E.
  - apply Ff, blend_in_names in H. exfalso. exact (blink_names_not_feature n Hn H).
  - apply Fg, blend_in_names in H. exfalso. exact (blink_names_not_gaze n Hn H).
Qed.

(** X15. A face the tracker gave no [eye_blink] for goes through the
    loop with its eyes taken as open: its frame holds the five blink
    messages, each with a weight equal to 0; a face with an [eye_blink]
    keeps its own. *)
Theorem default_blink_is_open (math : MathModule) (self : VMCSender) (now : Q)
    (f : FaceInfo) :
  eye_blink f = None ->
  (forall n, In n blink_names ->
     exists w, In (blend n w) (frame math self now (with_default_blink f)) /\ w == 0)
  /\ (forall n w, In n blink_names ->
        In (blend n w) (frame math self now (with_default_blink f)) -> w == 0).
Proof.
  intros Hb. unfold with_default_blink. rewrite Hb. split.
  - intros n Hn. unfold blink_names in Hn. cbn [In] in Hn.
    repeat destruct Hn as [Hn|Hn]; try contradiction; subst n;
      (eexists; split;
       [apply blink_in_frame; [in_list|]; unfold blink_batch; cbn [eye_blink]; in_list
       | vm_compute; reflexivity]).
  - intros n w Hn Hin. apply blink_in_frame in Hin; [|exact Hn].
    unfold blink_batch in Hin. cbn [eye_blink] in Hin. cbv zeta in Hin.
    in_batch Hin; injection Hin as _ <-; vm_compute; reflexivity.
Qed.

Lemma default_blink_is_open_witness : (1 - 1 + (1 - 1)) / 2 == 0.
Proof.
  apply (proj2 (default_blink_is_open approx_math sender0 5 face_wide_gaze eq_refl)
           "Blink").
  - in_list.
  - vm_compute. repeat first [left; reflexivity | right].
Defined.

(** A face that has an [eye_blink] is sent by the loop as it is. *)
Lemma given_blink_is_kept (f : FaceInfo) (b : Q * Q) :
  eye_blink f = Some b -> with_default_blink f = f.
Proof. intros H. unfold with_default_blink. rewrite H. reflexivity. Qed.

(** ** Rotations *)

Lemma euler_to_quaternion_norm (math : MathModule) (pitch yaw roll : Q) :
  (forall x, cos math x * cos math x + sin math x * sin math x == 1) ->
  quat_norm2 (euler_to_quaternion math pitch yaw roll) == 1.
Proof.
  intros H. unfold euler_to_quaternion, quat_norm2. cbv zeta.
  pose proof (H (radians math roll * (1 # 2))) as Hr.
  pose proof (H (radians math pitch * (1 # 2))) as Hp.
  pose proof (H (radians math yaw * (1 # 2))) as Hy.
  set (cr := cos math (radians math roll * (1 # 2))) in *.
  set (sr := sin math (radians math roll * (1 # 2))) in *.
  set (cp := cos math (radians math pitch * (1 # 2))) in *.
  set (sp := sin math (radians math pitch * (1 # 2))) in *.
  set (cy := cos math (radians math yaw * (1 # 2))) in *.
  set (sy := sin math (radians math yaw * (1 # 2))) in *.
  transitivity ((cr * cr + sr * sr) * (cp * cp + sp * sp) * (cy * cy + sy * sy)).
  - ring.
  - rewrite Hr, Hp, Hy. reflexivity.
Qed.

Lemma circle_math_pythagoras (x : Q) :
  cos circle_math x * cos circle_math x + sin circle_math x * sin circle_math x == 1.
Proof.
  cbn [cos sin circle_math].
  assert (Hx : 0 <= x * x) by nra.
  field. intros E. lra.
Qed.

(** X16. When the [math] module satisfies [cos x ^ 2 + sin x ^ 2 = 1],
    every [/VMC/Ext/Bone/Pos] of a frame (head, neck and both eyes)
    carries a quaternion of norm 1. *)
Theorem bone_rotations_unit (math : MathModule) (self : VMCSender) (now : Q)
    (f : FaceInfo) :
  (forall x, cos math x * cos math x + sin math x * sin math x == 1) ->
  forall m,
    In m (frame math self now f) ->
    address m = "/VMC/Ext/Bone/Pos" ->
    exists n p q, m = bone n p q /\ quat_norm2 q == 1.
Proof.
  intros H m Hin Hbone. apply encode_frame_In in Hin.
  pose proof (eye_bone_batch_shape math f) as Fe.
  pose proof (blink_batch_range f) as Fb.
  pose proof (feature_batch_shape f) as Ff.
  pose proof (gaze_batch_shape f) as Fg.
  rewrite List.Forall_forall in Fe, Fb, Ff, Fg.
  destruct Hin as [->|[->|[->|[Hin|[Hin|[Hin|[Hin|[Hin| ->]]]]]]]];
    try discriminate Hbone.
  - unfold head_batch in Hin.
    destruct (success f); [|destruct (euler f); destruct Hin].
    destruct (euler f) as [[[pitch yaw] roll]|]; [|destruct Hin].
    destruct (translation f) as [[[t0 t1] t2]|];
      (destruct Hin as [<-|[<-|[]]];
       eexists _, _, _; (split; [reflexivity | apply euler_to_quaternion_norm, H])).
  - destruct (Fe m Hin) as (i & n & es & eye & x & y & _ & _ & _ & _ & _ & ->).
    eexists _, _, _. split; [reflexivity | apply euler_to_quaternion_norm, H].
  - destruct (Fb m Hin) as (n & w & -> & _). discriminate Hbone.
  - destruct (Ff m Hin) as (n & w & -> & _). discriminate Hbone.
  - destruct (Fg m Hin) as (n & w & -> & _). discriminate Hbone.
Qed.

Lemma bone_rotations_unit_witness :
  exists n p q,
    bone "Head" (100 / 1000, - 50 / 1000, 600 / 1000)
      (euler_to_quaternion circle_math (- 10) (- -20) 5)
    = bone n p q /\ quat_norm2 q == 1.
Proof.
  apply (bone_rotations_unit circle_math sender0 5 face_posed circle_math_pythagoras).
  - vm_compute. repeat first [left; reflexivity | right].
  - reflexivity.
Defined.

Lemma clamp_sym_cases (g : Q) :
  (-1 <= g <= 1 -> py_max (-1) (py_min 1 g) == g)
  /\ (1 <= g -> py_max (-1) (py_min 1 g) == 1)
  /\ (g <= -1 -> py_max (-1) (py_min 1 g) == -1).
Proof. repeat split; intros H; py_cases; lra. Qed.

(** X17. Within the window the degrees of an eye bone are the normalised
    offset times the scale; from offset 32 on they stay at the scale, and
    from offset 0 down at its negative. *)
Theorem gaze_degrees_saturate (scale o : Q) :
  (0 <= o <= 32 -> gaze_degrees scale o == (o - 16) / 16 * scale)
  /\ (32 <= o -> gaze_degrees scale o == scale)
  /\ (o <= 0 -> gaze_degrees scale o == - scale).
Proof.
  unfold gaze_degrees.
  destruct (clamp_sym_cases ((o - 16) / 16)) as (Hin & Hhi & Hlo).
  repeat split; intros H.
  - rewrite Hin by (apply normalised_in_window; exact H). reflexivity.
  - rewrite Hhi by (apply Qle_shift_div_l; lra). ring.
  - rewrite Hlo by (apply Qle_shift_div_r; lra). ring.
Qed.

Lemma gaze_degrees_saturate_witness :
  gaze_degrees 15 48 == 15 /\ gaze_degrees 15 (-3) == - 15 /\ gaze_degrees 10 16 == 0.
Proof.
  destruct (gaze_degrees_saturate 15 48) as (_ & H1 & _).
  destruct (gaze_degrees_saturate 15 (-3)) as (_ & _ & H2).
  destruct (gaze_degrees_saturate 10 16) as (H3 & _ & _).
  split; [apply H1; vm_compute; discriminate|].
  split; [apply H2; vm_compute; discriminate|].
  rewrite H3 by (split; vm_compute; discriminate). vm_compute. reflexivity.
Defined.

(** ** The self-test *)

Lemma for_in_plays {A} (l : list A) (body : A -> M unit) (g : A -> list OSCMessage) :
  (forall x, plays (body x) (g x)) -> plays (for_in l body) (flat_map g l).
Proof.
  intros H. induction l as [|x l IH]; [apply plays_ret|].
  cbn [for_in flat_map]. apply plays_seq; [apply H | exact IH].
Qed.

Lemma test_round_plays (math : MathModule) (now : Q) (i : nat) :
  plays (test_round math now i) (test_batch math now i).
Proof.
  unfold test_round, test_batch.
  cbv beta iota zeta delta [euler_to_quaternion bone]. play_sends.
Qed.

Lemma self_test_plays (math : MathModule) (clock : nat -> Q) :
  plays (self_test math clock) (test_rounds math clock 0 100).
Proof.
  unfold self_test, test_rounds. apply for_in_plays. intros i. apply test_round_plays.
Qed.

Lemma test_rounds_length (math : MathModule) (clock : nat -> Q) (a n : nat) :
  length (test_rounds math clock a n) = (10 * n)%nat.
Proof.
  unfold test_rounds. revert a. induction n as [|n IH]; intros a; [reflexivity|].
  cbn [seq flat_map]. rewrite length_app, IH. cbn [length test_batch]. lia.
Qed.

Lemma test_rounds_nth (math : MathModule) (clock : nat -> Q) (a n i j : nat) :
  (i < n)%nat -> (j < 10)%nat ->
  nth_error (test_rounds math clock a n) (10 * i + j)
  = nth_error (test_batch math (clock (a + i)%nat) (a + i)) j.
Proof.
  unfold test_rounds. revert a i. induction n as [|n IH]; intros a i Hi Hj; [lia|].
  cbn [seq flat_map]. destruct i as [|i].
  - rewrite Nat.add_0_r, Nat.mul_0_r, Nat.add_0_l.
    apply nth_error_app1. cbn [length test_batch]. exact Hj.
  - rewrite nth_error_app2 by (cbn [length test_batch]; lia).
    cbn [length test_batch].
    replace (10 * S i + j - 10)%nat with (10 * i + j)%nat by lia.
    rewrite IH by lia. replace (S a + i)%nat with (a + S i)%nat by lia. reflexivity.
Qed.

(** X18. On a socket that accepts every datagram the self-test sends a
    thousand datagrams, ten a round: round [i] opens with
    [/VMC/Ext/OK (1, 0, 0)] and the clock reading as [/VMC/Ext/T], and
    closes with [/VMC/Ext/Blend/Apply] followed by the [Head] bone, which
    here comes after the apply signal. *)
Theorem self_test_rounds (math : MathModule) (clock : nat -> Q)
    (c : SimpleUDPClient) :
  reliable c ->
  exists L,
    self_test math clock c = (Ok tt, push L c)
    /\ length L = 1000%nat
    /\ forall i, (i < 100)%nat ->
         nth_error L (10 * i) = Some (mkMsg "/VMC/Ext/OK" [OInt 1; OInt 0; OInt 0])
         /\ nth_error L (10 * i + 1) = Some (mkMsg "/VMC/Ext/T" [OFloat (clock i)])
         /\ nth_error L (10 * i + 8) = Some (mkMsg "/VMC/Ext/Blend/Apply" [])
         /\ exists q, nth_error L (10 * i + 9) = Some (bone "Head" (0, 0, 0) q).
Proof.
  intros Hc. exists (test_rounds math clock 0 100).
  split; [exact (plays_reliable _ _ c (self_test_plays math clock) Hc)|].
  split; [apply test_rounds_length|].
  intros i Hi.
  pose proof (test_rounds_nth math clock 0 100 i 0 Hi ltac:(lia)) as H0.
  rewrite Nat.add_0_r in H0.
  rewrite H0, !test_rounds_nth by lia.
  cbn [Nat.add]. repeat split. eexists. reflexivity.
Qed.

Lemma self_test_rounds_witness :
  reliable pristine /\
  exists L,
    self_test approx_math (fun i => inject_Z (Z.of_nat i)) pristine
    = (Ok tt, push L pristine)
    /\ length L = 1000%nat.
Proof.
  split; [exact pristine_reliable|].
  destruct (self_test_rounds approx_math (fun i => inject_Z (Z.of_nat i)) pristine
              pristine_reliable) as (L & H1 & H2 & _).
  exists L. split; assumption.
Defined.

(** X19. When the sine of the [math] module stays within [-1, 1], every
    [/VMC/Ext/Blend/Val] of the self-test carries a weight within
    [0, 1]. *)
Theorem self_test_weights_unit (math : MathModule) (clock : nat -> Q)
    (m : OSCMessage) :
  (forall x, -1 <= sin math x <= 1) ->
  In m (test_rounds math clock 0 100) ->
  address m = "/VMC/Ext/Blend/Val" ->
  exists n w, m = mkMsg "/VMC/Ext/Blend/Val" [OStr n; OFloat w] /\ 0 <= w <= 1.
Proof.
  intros Hsin Hin Hval. unfold test_rounds in Hin.
  apply in_flat_map in Hin. destruct Hin as (i & _ & Hin).
  assert (Habs : forall x, 0 <= Qabs (sin math x) <= 1).
  { intros x. split; [apply Qabs_nonneg|].
    apply Qabs_Qle_condition. exact (Hsin x). }
  unfold test_batch in Hin. cbv zeta in Hin.
  in_batch Hin; subst m; try discriminate Hval;
    (eexists _, _; split; [reflexivity | apply Habs]).
Qed.

Lemma circle_math_sine_bounded (x : Q) : -1 <= sin circle_math x <= 1.
Proof.
  cbn [sin circle_math].
  assert (Hsq : forall a : Q, 0 <= a * a) by (intros a; nra).
  pose proof (Hsq (x - 1)) as H1. pose proof (Hsq (x + 1)) as H2.
  pose proof (Hsq x) as H0.
  assert (Hd : 0 < 1 + x * x) by lra.
  split.
  - apply Qle_shift_div_l; [exact Hd | nra].
  - apply Qle_shift_div_r; [exact Hd | nra].
Qed.

Lemma self_test_weights_unit_witness :
  exists n w,
    blend "A" (Qabs (sin circle_math (inject_Z (Z.of_nat 0) * (1 # 20))))
    = mkMsg "/VMC/Ext/Blend/Val" [OStr n; OFloat w]
    /\ 0 <= w <= 1.
Proof.
  apply (self_test_weights_unit circle_math (fun i => inject_Z (Z.of_nat i))).
  - exact circle_math_sine_bounded.
  - unfold test_rounds. apply in_flat_map. exists 0%nat.
    split; [apply in_seq; lia|].
    unfold test_batch. cbv zeta. do 7 right. left. reflexivity.
  - reflexivity.
Defined.

(** ** The quality dropdown of the GUI *)

Lemma get_selected_quality_missing (camera_modes : list (Z * Z * Z * string))
    (selected : string) :
  ~ In selected (quality_options camera_modes) ->
  get_selected_quality camera_modes selected = (640, 480, 30)%Z.
Proof.
  unfold quality_options.
  induction camera_modes as [|[[[w h] fps] label] rest IH]; intros Hn; [reflexivity|].
  cbn [get_selected_quality]. cbn [map snd In] in Hn.
  destruct (String.eqb label selected) eqn:E.
  - apply String.eqb_eq in E. tauto.
  - apply IH. tauto.
Qed.

(** X20. Choosing the label of a listed mode gives back that mode's
    width, height and frame rate, provided the labels of the list are
    pairwise distinct. *)
Theorem quality_label_round_trip (camera_modes : list (Z * Z * Z * string))
    (i : nat) (w h fps : Z) (label : string) :
  List.NoDup (quality_options camera_modes) ->
  nth_error camera_modes i = Some (w, h, fps, label) ->
  get_selected_quality camera_modes label = (w, h, fps).
Proof.
  unfold quality_options. revert i.
  induction camera_modes as [|[[[w' h'] fps'] label'] rest IH]; intros i Hnd Hi.
  - destruct i; discriminate Hi.
  - cbn [map snd] in Hnd. apply List.NoDup_cons_iff in Hnd. destruct Hnd as [Hnot Hnd].
    cbn [get_selected_quality]. destruct i as [|i].
    + cbn in Hi. injection Hi as -> -> -> ->. rewrite String.eqb_refl. reflexivity.
    + cbn [nth_error] in Hi.
      destruct (String.eqb label' label) eqn:E.
      * apply String.eqb_eq in E. subst label'. exfalso. apply Hnot.
        apply nth_error_In in Hi. apply (in_map snd) in Hi. exact Hi.
      * exact (IH i Hnd Hi).
Qed.

Lemma quality_label_round_trip_witness :
  get_selected_quality fallback_modes "640x480 @ 30fps" = (640, 480, 30)%Z.
Proof.
  apply (quality_label_round_trip fallback_modes 1).
  - unfold quality_options, fallback_modes. cbn [map snd].
    repeat constructor; cbn [In]; intros H;
      repeat destruct H as [H|H]; try discriminate H; exact H.
  - reflexivity.
Defined.

(** X21. When labels repeat, the first mode with the chosen label is the
    one returned; when no mode has the chosen label (an empty list, or a
    stale selection) the result is the default 640 x 480 at 30 fps. *)
Theorem quality_first_match_or_default (camera_modes : list (Z * Z * Z * string))
    (selected : string) :
  (exists before w h fps after,
     camera_modes = before ++ (w, h, fps, selected) :: after
     /\ ~ In selected (quality_options before)
     /\ get_selected_quality camera_modes selected = (w, h, fps))
  \/ (~ In selected (quality_options camera_modes)
      /\ get_selected_quality camera_modes selected = (640, 480, 30)%Z).
Proof.
  unfold quality_options.
  induction camera_modes as [|[[[w h] fps] label] rest IH].
  - right. split; [intros []|reflexivity].
  - cbn [get_selected_quality map snd In].
    destruct (String.eqb label selected) eqn:E.
    + apply String.eqb_eq in E. subst label. left.
      exists [], w, h, fps, rest. split; [reflexivity|]. split; [intros []|reflexivity].
    + apply String.eqb_neq in E.
      destruct IH as [(before & w' & h' & fps' & after & -> & Hb & Hg)|(Hn & Hg)].
      * left. exists ((w, h, fps, label) :: before), w', h', fps', after.
        split; [reflexivity|]. split; [|exact Hg].
        cbn [map snd In]. tauto.
      * right. split; [tauto | exact Hg].
Qed.
